(** * logstash_formatter: the record-to-JSON formatter

    A shallow embedding of [src/logstash_formatter/__init__.py]
    ([LogstashFormatter.__init__], [LogstashFormatter.format],
    [LogstashFormatter._build_fields], [_default_json_default]) and the
    properties of the output document that follow from it.

    Python dictionaries are finite maps with string keys; a call that can
    raise returns a [result]; the standard-library functions the formatter
    calls ([str.format], [traceback.format_exception], [json.loads],
    [json.dumps], [socket.gethostname], ...) are the methods of the
    interface [PyLib], of which [ref_lib] is an executable instance.

    [format] is embedded twice: over values, for what its output holds,
    and over a store of mutable objects, for which objects a call writes
    to. *)

From Stdlib Require Import ZArith Ascii String.
From stdpp Require Import base option list gmap strings fin_maps pretty.

Set Warnings "-register-all".
Open Scope string_scope.

(** ** Exceptions and results *)

(** The exception classes that occur. All of them derive from [Exception];
    [JSONDecodeError] is the subclass of [ValueError] that [json.loads]
    raises. *)
Inductive exn :=
| TypeError
| AttributeError
| KeyError
| IndexError
| ValueError
| JSONDecodeError
| OSError
| NotImplementedError.

#[global] Instance exn_eq_dec : EqDecision exn.
Proof. solve_decision. Defined.

Inductive result (A : Type) :=
| Ok (a : A)
| Raise (e : exn).
Arguments Ok {A} a.
Arguments Raise {A} e.

#[global] Instance result_ret : MRet result := fun _ a => Ok a.
#[global] Instance result_bind : MBind result := fun _ _ f m =>
  match m with
  | Ok a => f a
  | Raise e => Raise e
  end.
#[global] Instance result_fmap : FMap result := fun _ _ f m =>
  match m with
  | Ok a => Ok (f a)
  | Raise e => Raise e
  end.

Definition returns {A} (m : result A) : Prop := exists a, m = Ok a.
Definition raises {A} (m : result A) : Prop := exists e, m = Raise e.

(** ** Python values *)

(** [PyFloat] keeps the numeral of a float, [PyTime] the [isoformat()] text
    of a [datetime], [date] or [time] object, [PyObj] the [str()] text of
    any other object (an exception class or instance, a traceback, ...). *)
Inductive pyval :=
| PyNone
| PyBool (b : bool)
| PyInt (n : Z)
| PyFloat (numeral : string)
| PyStr (s : string)
| PyList (l : list pyval)
| PyTuple (l : list pyval)
| PyDict (d : gmap string pyval)
| PyTime (iso : string)
| PyObj (text : string).

Abbreviation pydict := (gmap string pyval).

(** [bool(v)]: the truth value of [v]. A float numeral is zero when it has
    no digit other than [0] before its exponent. *)
Fixpoint numeral_is_zero (s : string) : bool :=
  match s with
  | EmptyString => true
  | String c s' =>
      if bool_decide (c = "e"%char \/ c = "E"%char) then true
      else if bool_decide (c = "-"%char \/ c = "+"%char \/ c = "."%char \/ c = "0"%char)
           then numeral_is_zero s'
           else false
  end.

Definition py_truthy (v : pyval) : bool :=
  match v with
  | PyNone => false
  | PyBool b => b
  | PyInt n => negb (n =? 0)%Z
  | PyFloat f => negb (numeral_is_zero f)
  | PyStr s => negb (bool_decide (s = ""))
  | PyList l | PyTuple l => negb (bool_decide (l = []))
  | PyDict d => negb (bool_decide (dom d = ∅))
  | PyTime _ | PyObj _ => true
  end.

(** [needle in v] for a string [needle]. *)
Definition is_substring (needle s : string) : bool :=
  bool_decide (is_Some (String.index 0 needle s)).

Definition is_str (needle : string) (v : pyval) : bool :=
  match v with
  | PyStr s => bool_decide (s = needle)
  | _ => false
  end.

Definition py_contains (needle : string) (v : pyval) : result bool :=
  match v with
  | PyDict d => Ok (bool_decide (is_Some (d !! needle)))
  | PyList l | PyTuple l => Ok (existsb (is_str needle) l)
  | PyStr s => Ok (is_substring needle s)
  | _ => Raise TypeError
  end.

(** [v[key]] for a string [key]. *)
Definition py_getitem (v : pyval) (key : string) : result pyval :=
  match v with
  | PyDict d =>
      match d !! key with
      | Some x => Ok x
      | None => Raise KeyError
      end
  | _ => Raise TypeError
  end.

(** [v.copy()]: dictionaries and lists have the method. *)
Definition py_copy (v : pyval) : result pyval :=
  match v with
  | PyDict d => Ok (PyDict d)
  | PyList l => Ok (PyList l)
  | _ => Raise AttributeError
  end.

(** The bound method [v.update]: only a dictionary has it. *)
Definition py_update_method (v : pyval) : result (pydict -> pydict) :=
  match v with
  | PyDict d => Ok (fun new => new ∪ d)
  | _ => Raise AttributeError
  end.

(** [v.get(key, dflt)] *)
Definition py_get (v : pyval) (key : string) (dflt : pyval) : result pyval :=
  match v with
  | PyDict d => Ok (default dflt (d !! key))
  | _ => Raise AttributeError
  end.

(** [v.items()] *)
Definition py_items (v : pyval) : result (list (string * pyval)) :=
  match v with
  | PyDict d => Ok (map_to_list d)
  | _ => Raise AttributeError
  end.

(** [dict(pairs)]: a later pair replaces an earlier one with its key. *)
Definition py_dict (pairs : list (string * pyval)) : pydict :=
  foldl (fun m kv => <[kv.1 := kv.2]> m) ∅ pairs.

(** [d.pop(key)] and [d.pop(key, dflt)] *)
Definition dict_pop (d : pydict) (key : string) : result (pyval * pydict) :=
  match d !! key with
  | Some x => Ok (x, delete key d)
  | None => Raise KeyError
  end.

Definition dict_pop_default (d : pydict) (key : string) (dflt : pyval)
  : pyval * pydict :=
  (default dflt (d !! key), delete key d).

(** ** The standard library, as an interface *)

Definition coercion := pyval -> result pyval.
Definition encoder := coercion -> pyval -> result string.

Class PyLib := {
  (** [template.format( **kwargs )] *)
  str_format : string -> pydict -> result string;
  str_format_empty : forall kwargs, str_format "" kwargs = Ok "";
  (** [traceback.format_exception( *exc_info )] *)
  format_exception : pyval -> result (list string);
  format_exception_nonempty :
    forall exc_info lines, format_exception exc_info = Ok lines -> lines <> [];
  (** [str(obj)] *)
  py_str : pyval -> result string;
  (** [json.loads(text)] *)
  json_loads : string -> result pyval;
  (** [json.JSONEncoder(default=coerce).encode(obj)] *)
  json_encode : encoder;
  (** [socket.gethostname()] and [socket.gethostbyname(name)] *)
  gethostname : result string;
  gethostbyname : string -> result string
}.

(** [json.dumps(obj, default=coerce, cls=cls)] *)
Definition json_dumps `{PyLib} (obj : pyval) (coerce : coercion)
    (cls : option encoder) : result string :=
  match cls with
  | None => json_encode coerce obj
  | Some enc => enc coerce obj
  end.

(** ** The formatter *)

Definition _default_json_default `{PyLib} (obj : pyval) : result pyval :=
  match obj with
  | PyTime iso => Ok (PyStr iso)
  | _ => PyStr <$> py_str obj
  end.

Record LogstashFormatter := {
  _fmt : pyval;
  json_default : coercion;
  json_cls : option encoder;
  defaults : pyval;
  source_host : pyval;
  host : pyval
}.

(** [try: body except Exception: fallback] *)
Definition or_else {A} (body : result A) (fallback : A) : A :=
  match body with
  | Ok a => a
  | Raise _ => fallback
  end.

Definition __init__ `{PyLib} (fmt : option string) (json_cls : option encoder)
    (json_default : coercion) : result LogstashFormatter :=
  _fmt ← match fmt with
         | Some text => json_loads text
         | None => Ok (PyDict ∅)
         end;
  has_extra ← py_contains "extra" _fmt;
  defaults ← (if negb has_extra then Ok (PyDict ∅)
              else py_getitem _fmt "extra");
  has_source_host ← py_contains "source_host" _fmt;
  source_host ← (if (has_source_host : bool) then py_getitem _fmt "source_host"
                 else Ok (or_else (PyStr <$> gethostname) (PyStr "")));
  let host := or_else (PyStr <$> (name ← gethostname; gethostbyname name))
                      (PyStr "") in
  Ok {| _fmt := _fmt; json_default := json_default; json_cls := json_cls;
        defaults := defaults; source_host := source_host; host := host |}.

(** A log record: its attribute dictionary and the outcome of its
    [getMessage()] method. *)
Record LogRecord := {
  __dict__ : pydict;
  getMessage : result string
}.

(** [record.name] *)
Definition getattr (record : LogRecord) (name : string) : result pyval :=
  match __dict__ record !! name with
  | Some v => Ok v
  | None => Raise AttributeError
  end.

Definition unwanted_tags : list string :=
  ["message"; "exc_text"; "exc_info"; "msg"; "lineno"; "filename";
   "funcName"; "levelno"; "module"; "msecs"; "pathname"; "process";
   "processName"; "relativeCreated"; "thread"; "threadName"].

Definition _build_fields (defaults : pyval) (fields : pydict) : result pydict :=
  nested ← py_get defaults "@fields" (PyDict ∅);
  items ← py_items nested;
  Ok (py_dict (items ++ map_to_list fields)).

(** [format], lines 73-80: the working field set and the message text. *)
Definition resolve_message (record : LogRecord) : result (pydict * string) :=
  let fields := __dict__ record in
  msg ← getattr record "msg";
  match msg with
  | PyDict m =>
      let fields := m ∪ fields in
      '(_, fields) ← dict_pop fields "msg";
      Ok (fields, "")
  | _ =>
      msg ← getMessage record;
      Ok (fields, msg)
  end.

(** [format], lines 82-85: [msg.format( **fields )] under
    [except (KeyError, IndexError): pass]. *)
Definition interpolate `{PyLib} (msg : string) (fields : pydict) : result string :=
  match str_format msg fields with
  | Ok text => Ok text
  | Raise KeyError | Raise IndexError => Ok msg
  | Raise e => Raise e
  end.

(** [format], lines 87-89. *)
Definition add_exception `{PyLib} (fields : pydict) : result pydict :=
  if py_truthy (default PyNone (fields !! "exc_info")) then
    exc_info ← py_getitem (PyDict fields) "exc_info";
    formatted ← format_exception exc_info;
    Ok (<["exception" := PyList (PyStr <$> formatted)]> fields)
  else Ok fields.

(** [format], lines 95-99. *)
Definition strip_unwanted (fields : pydict) : pydict :=
  foldl (fun fields tag => (dict_pop_default fields tag (PyStr "")).2)
        fields unwanted_tags.

(** [format], lines 87-99: the level name, the logger name and what is
    left of the working set. *)
Definition extract_fields `{PyLib} (fields : pydict)
  : result (pyval * pyval * pydict) :=
  fields ← add_exception fields;
  let '(loglevel, fields) := dict_pop_default fields "levelname" (PyStr "") in
  let '(worker_guid, fields) := dict_pop_default fields "name" (PyStr "") in
  Ok (loglevel, worker_guid, strip_unwanted fields).

(** [format], lines 73-99. *)
Definition prepare `{PyLib} (record : LogRecord)
  : result (string * pyval * pyval * pydict) :=
  '(fields, msg) ← resolve_message record;
  msg ← interpolate msg fields;
  '(loglevel, worker_guid, fields) ← extract_fields fields;
  Ok (msg, loglevel, worker_guid, fields).

(** The dictionary literal of lines 103-110; [now] is the text that
    [datetime.datetime.utcnow().strftime('%Y-%m-%dT%H:%M:%S.%fZ')] gives
    at the call. *)
Definition output_items (self : LogstashFormatter) (now msg : string)
    (loglevel worker_guid : pyval) (built : pydict) : pydict :=
  <["@message" := PyStr msg]>
  (<["@timestamp" := PyStr now]>
  (<["@source_host" := source_host self]>
  (<["loglevel" := loglevel]>
  (<["worker_guid" := worker_guid]>
  (<["logging_type" := PyStr "redis"]>
  (<["@host" := host self]>
  (<["@fields" := PyDict built]> ∅))))))).

(** [format], lines 101-110. *)
Definition assemble (self : LogstashFormatter) (now msg : string)
    (loglevel worker_guid : pyval) (fields : pydict) : result pydict :=
  logr ← py_copy (defaults self);
  update ← py_update_method logr;
  built ← _build_fields logr fields;
  Ok (update (output_items self now msg loglevel worker_guid built)).

(** The dictionary [logr] that [format] hands to [json.dumps]. *)
Definition format_logr `{PyLib} (self : LogstashFormatter) (record : LogRecord)
    (now : string) : result pydict :=
  '(msg, loglevel, worker_guid, fields) ← prepare record;
  assemble self now msg loglevel worker_guid fields.

Definition format `{PyLib} (self : LogstashFormatter) (record : LogRecord)
    (now : string) : result string :=
  logr ← format_logr self record now;
  json_dumps (PyDict logr) (json_default self) (json_cls self).

(** ** Vocabulary of the properties *)

(** The keys that [format] sets at the top level of its output. *)
Definition reserved_keys : gset string :=
  {["@message"; "@timestamp"; "@source_host"; "@host"; "loglevel";
    "worker_guid"; "logging_type"; "@fields"]}.

(** The names that [format] takes out of the working set. *)
Definition removed_names : list string :=
  "levelname" :: "name" :: unwanted_tags.

(** The working field set of a record when the fields are merged
    (line 101). *)
Definition working_fields `{PyLib} (record : LogRecord) : result pydict :=
  '(fields, _) ← resolve_message record;
  '(_, _, fields) ← extract_fields fields;
  Ok fields.

(** The fields a record supplies: its attributes, under the keys of its
    message when the message is a mapping. *)
Definition supplied_fields (record : LogRecord) : pydict :=
  match __dict__ record !! "msg" with
  | Some (PyDict m) => m ∪ __dict__ record
  | _ => __dict__ record
  end.

(** The mapping under ['@fields'] in the configured defaults, empty when
    there is none. *)
Definition nested_defaults (self : LogstashFormatter) : pydict :=
  match defaults self with
  | PyDict d =>
      match d !! "@fields" with
      | Some (PyDict nested) => nested
      | _ => ∅
      end
  | _ => ∅
  end.

(** The decoded payloads on which the membership tests or the lookups of
    [__init__] raise: a number, a boolean or [null]; a string with [extra]
    or [source_host] in it; an array with one of these two strings. *)
Definition rejected_config (v : pyval) : bool :=
  match v with
  | PyDict _ => false
  | PyList l | PyTuple l =>
      existsb (is_str "extra") l || existsb (is_str "source_host") l
  | PyStr s => is_substring "extra" s || is_substring "source_host" s
  | _ => true
  end.

(** The configured defaults are a mapping whose ['@fields'] entry, when
    there is one, is a mapping. *)
Definition defaults_ok (self : LogstashFormatter) (d : pydict) : Prop :=
  defaults self = PyDict d /\
  (d !! "@fields" = None \/ exists nested, d !! "@fields" = Some (PyDict nested)).

(** ** A reference instance of the library

    [ref_lib] runs the examples. Its methods follow CPython on the inputs
    they implement and raise [NotImplementedError] on the others: a
    replacement field with an attribute, an index, a conversion or a format
    spec; [str()] of a container; a non-ASCII byte in a string to encode.
    An object is encoded with its members in the order of its keys. *)

Definition ascii_code (c : ascii) : Z := Z.of_N (N_of_ascii c).

Definition is_digit (c : ascii) : bool :=
  (48 <=? ascii_code c)%Z && (ascii_code c <=? 57)%Z.

Fixpoint digits_value (acc : Z) (s : string) : Z :=
  match s with
  | EmptyString => acc
  | String c s' => digits_value (10 * acc + (ascii_code c - 48))%Z s'
  end.

Fixpoint all_digits (s : string) : bool :=
  match s with
  | EmptyString => true
  | String c s' => is_digit c && all_digits s'
  end.

Fixpoint replace_char (old new : ascii) (s : string) : string :=
  match s with
  | EmptyString => EmptyString
  | String c s' =>
      String (if Ascii.eqb c old then new else c) (replace_char old new s')
  end.

Definition ref_str (v : pyval) : result string :=
  match v with
  | PyNone => Ok "None"
  | PyBool true => Ok "True"
  | PyBool false => Ok "False"
  | PyInt n => Ok (pretty n)
  | PyFloat numeral => Ok numeral
  | PyStr s => Ok s
  | PyTime iso => Ok (replace_char "T" " " iso)
  | PyObj text => Ok text
  | PyList _ | PyTuple _ | PyDict _ => Raise NotImplementedError
  end.

(** *** [str.format] with keyword arguments only *)

(** The text of a replacement field, after its opening brace, and what
    follows its closing brace. *)
Fixpoint split_field (s : string) : result (string * string) :=
  match s with
  | EmptyString => Raise ValueError
  | String c s' =>
      if Ascii.eqb c "}" then Ok (EmptyString, s')
      else if Ascii.eqb c "{" then Raise ValueError
      else if existsb (Ascii.eqb c) ["."; "["; "!"; ":"]%char
           then Raise NotImplementedError
           else '(name, rest) ← split_field s'; Ok (String c name, rest)
  end.

Definition PY_SSIZE_T_MAX : Z := 2 ^ 63 - 1.

(** The object a field name refers to, rendered with an empty format
    spec; no positional argument is passed. *)
Definition render_field (name : string) (kwargs : pydict) : result string :=
  if all_digits name then
    if (PY_SSIZE_T_MAX <? digits_value 0 name)%Z then Raise ValueError
    else Raise IndexError
  else
    match kwargs !! name with
    | Some v => ref_str v
    | None => Raise KeyError
    end.

Fixpoint brace_format (fuel : nat) (template : string) (kwargs : pydict)
  : result string :=
  match fuel, template with
  | _, EmptyString => Ok EmptyString
  | O, _ => Raise ValueError
  | S fuel, String c rest =>
      if Ascii.eqb c "{" then
        match rest with
        | String "{" rest' => String "{" <$> brace_format fuel rest' kwargs
        | _ =>
            '(name, rest') ← split_field rest;
            text ← render_field name kwargs;
            String.append text <$> brace_format fuel rest' kwargs
        end
      else if Ascii.eqb c "}" then
        match rest with
        | String "}" rest' => String "}" <$> brace_format fuel rest' kwargs
        | _ => Raise ValueError
        end
      else String c <$> brace_format fuel rest kwargs
  end.

Definition ref_format (template : string) (kwargs : pydict) : result string :=
  brace_format (String.length template) template kwargs.

(** *** [traceback.format_exception] *)

(** The lines for a triple [(type, value, traceback)]: the header and the
    frames, when there is a traceback, then [type: value]. *)
Definition type_name (v : pyval) : result string :=
  match v with
  | PyNone => Ok "NoneType"
  | _ => ref_str v
  end.

Definition ref_format_exception (exc_info : pyval) : result (list string) :=
  match exc_info with
  | PyTuple [etype; value; tb] =>
      name ← type_name etype;
      text ← ref_str value;
      let last := name ++ ": " ++ text ++ String "010" "" in
      match tb with
      | PyNone => Ok [last]
      | _ =>
          frames ← ref_str tb;
          Ok ["Traceback (most recent call last):" ++ String "010" "";
              frames; last]
      end
  | _ => Raise TypeError
  end.

(** *** [json.loads] *)

Definition is_ws (c : ascii) : bool :=
  existsb (Ascii.eqb c) [" "; "009"; "010"; "013"]%char.

Fixpoint skip_ws (s : string) : string :=
  match s with
  | String c s' => if is_ws c then skip_ws s' else s
  | EmptyString => s
  end.

Fixpoint take_digits (s : string) : string * string :=
  match s with
  | String c s' =>
      if is_digit c then let '(ds, rest) := take_digits s' in (String c ds, rest)
      else (EmptyString, s)
  | EmptyString => (EmptyString, s)
  end.

(** [prefix ++ rest = s], when [s] starts with [prefix]. *)
Fixpoint strip_prefix (prefix s : string) : option string :=
  match prefix, s with
  | EmptyString, _ => Some s
  | String a p', String b s' => if Ascii.eqb a b then strip_prefix p' s' else None
  | _, EmptyString => None
  end.

(** A number: an optional minus sign, then [0] or a digit string that does
    not start with [0], then an optional fraction (a dot and digits) and an
    optional exponent ([e] or [E], an optional sign and digits). It is an
    [int] when it has neither fraction nor exponent. *)
Definition parse_number (s : string) : result (pyval * string) :=
  let '(sign, s1) := match s with
                     | String "-" s' => ("-", s')
                     | _ => ("", s)
                     end in
  '(int_part, s2) ← match s1 with
                    | String "0" s' => Ok ("0", s')
                    | String c _ =>
                        if is_digit c then Ok (take_digits s1)
                        else Raise JSONDecodeError
                    | EmptyString => Raise JSONDecodeError
                    end;
  let '(frac, s3) := match s2 with
                     | String "." s' =>
                         let '(ds, rest) := take_digits s' in
                         if bool_decide (ds = "") then ("", s2)
                         else ("." ++ ds, rest)
                     | _ => ("", s2)
                     end in
  let '(expo, s4) :=
    match s3 with
    | String e s' =>
        if Ascii.eqb e "e" || Ascii.eqb e "E" then
          let '(esign, s'') := match s' with
                               | String "-" t => ("-", t)
                               | String "+" t => ("+", t)
                               | _ => ("", s')
                               end in
          let '(ds, rest) := take_digits s'' in
          if bool_decide (ds = "") then ("", s3)
          else (String e (esign ++ ds), rest)
        else ("", s3)
    | EmptyString => ("", s3)
    end in
  if bool_decide (frac = "" /\ expo = "") then
    let n := digits_value 0 int_part in
    Ok (PyInt (if bool_decide (sign = "-") then - n else n), s4)
  else Ok (PyFloat (sign ++ int_part ++ frac ++ expo), s4).

Definition hex_value (c : ascii) : option Z :=
  let n := ascii_code c in
  if is_digit c then Some (n - 48)%Z
  else if (97 <=? n)%Z && (n <=? 102)%Z then Some (n - 87)%Z
  else if (65 <=? n)%Z && (n <=? 70)%Z then Some (n - 55)%Z
  else None.

(** The four hexadecimal digits of a [\u] escape. *)
Definition parse_hex4 (s : string) : result (Z * string) :=
  match s with
  | String a (String b (String c (String d rest))) =>
      match hex_value a, hex_value b, hex_value c, hex_value d with
      | Some x, Some y, Some z, Some w =>
          Ok ((((x * 16 + y) * 16 + z) * 16 + w)%Z, rest)
      | _, _, _, _ => Raise JSONDecodeError
      end
  | _ => Raise JSONDecodeError
  end.

Definition byte (n : Z) : ascii := ascii_of_N (Z.to_N n).

(** The UTF-8 bytes of a code point. *)
Definition utf8 (cp : Z) : string :=
  if (cp <? 128)%Z then String (byte cp) ""
  else if (cp <? 2048)%Z then
    String (byte (192 + cp / 64)) (String (byte (128 + cp mod 64)) "")
  else if (cp <? 65536)%Z then
    String (byte (224 + cp / 4096))
      (String (byte (128 + (cp / 64) mod 64))
         (String (byte (128 + cp mod 64)) ""))
  else
    String (byte (240 + cp / 262144))
      (String (byte (128 + (cp / 4096) mod 64))
         (String (byte (128 + (cp / 64) mod 64))
            (String (byte (128 + cp mod 64)) ""))).

(** A [\u] escape, after the [u]: a high surrogate followed by the escape
    of a low one is the code point of the pair. *)
Definition parse_unicode_escape (s : string) : result (string * string) :=
  '(hi, rest) ← parse_hex4 s;
  let single := Ok (utf8 hi, rest) in
  if (55296 <=? hi)%Z && (hi <=? 56319)%Z then
    match rest with
    | String "\" (String "u" rest') =>
        match parse_hex4 rest' with
        | Ok (lo, rest'') =>
            if (56320 <=? lo)%Z && (lo <=? 57343)%Z
            then Ok (utf8 (65536 + (hi - 55296) * 1024 + (lo - 56320))%Z, rest'')
            else single
        | Raise _ => single
        end
    | _ => single
    end
  else single.

(** The text of a string, after its opening quote. *)
Fixpoint parse_string (fuel : nat) (s : string) : result (string * string) :=
  match fuel, s with
  | O, _ | _, EmptyString => Raise JSONDecodeError
  | S fuel, String c s' =>
      if Ascii.eqb c "034" then Ok (EmptyString, s')
      else if Ascii.eqb c "\" then
        match s' with
        | String e s'' =>
            '(text, rest) ←
              (if Ascii.eqb e "u" then parse_unicode_escape s''
               else match e with
                    | "034"%char | "\"%char | "/"%char => Ok (String e "", s'')
                    | "b"%char => Ok (String "008" "", s'')
                    | "f"%char => Ok (String "012" "", s'')
                    | "n"%char => Ok (String "010" "", s'')
                    | "r"%char => Ok (String "013" "", s'')
                    | "t"%char => Ok (String "009" "", s'')
                    | _ => Raise JSONDecodeError
                    end);
            '(tail, rest') ← parse_string fuel rest;
            Ok (text ++ tail, rest')
        | EmptyString => Raise JSONDecodeError
        end
      else if (ascii_code c <? 32)%Z then Raise JSONDecodeError
      else '(tail, rest) ← parse_string fuel s'; Ok (String c tail, rest)
  end.

Section Decoder.
(** The decoder of a value, for the elements of an array and the members
    of an object. *)
Variable parse_value : string -> result (pyval * string).

(** The elements of an array after its first one, up to the bracket. *)
Fixpoint parse_elements (fuel : nat) (s : string)
  : result (list pyval * string) :=
  match fuel, skip_ws s with
  | S fuel, String "]" rest => Ok ([], rest)
  | S fuel, String "," rest =>
      '(v, rest') ← parse_value (skip_ws rest);
      '(vs, rest'') ← parse_elements fuel rest';
      Ok (v :: vs, rest'')
  | _, _ => Raise JSONDecodeError
  end.

(** One member, [name : value]. *)
Definition parse_member (s : string) : result (string * pyval * string) :=
  match s with
  | String "034" rest =>
      '(key, rest') ← parse_string (String.length rest) rest;
      match skip_ws rest' with
      | String ":" rest'' =>
          '(v, rest''') ← parse_value (skip_ws rest'');
          Ok (key, v, rest''')
      | _ => Raise JSONDecodeError
      end
  | _ => Raise JSONDecodeError
  end.

(** The members of an object after its first one, up to the brace. *)
Fixpoint parse_members (fuel : nat) (s : string)
  : result (list (string * pyval) * string) :=
  match fuel, skip_ws s with
  | S fuel, String "}" rest => Ok ([], rest)
  | S fuel, String "," rest =>
      '(key, v, rest') ← parse_member (skip_ws rest);
      '(kvs, rest'') ← parse_members fuel rest';
      Ok ((key, v) :: kvs, rest'')
  | _, _ => Raise JSONDecodeError
  end.
End Decoder.

Definition parse_literal (s : string) : result (pyval * string) :=
  match strip_prefix "null" s, strip_prefix "true" s, strip_prefix "false" s,
        strip_prefix "NaN" s, strip_prefix "Infinity" s,
        strip_prefix "-Infinity" s with
  | Some rest, _, _, _, _, _ => Ok (PyNone, rest)
  | _, Some rest, _, _, _, _ => Ok (PyBool true, rest)
  | _, _, Some rest, _, _, _ => Ok (PyBool false, rest)
  | _, _, _, Some rest, _, _ => Ok (PyFloat "NaN", rest)
  | _, _, _, _, Some rest, _ => Ok (PyFloat "Infinity", rest)
  | _, _, _, _, _, Some rest => Ok (PyFloat "-Infinity", rest)
  | _, _, _, _, _, _ => parse_number s
  end.

Fixpoint parse_value (fuel : nat) (s : string) : result (pyval * string) :=
  match fuel, s with
  | O, _ => Raise JSONDecodeError
  | S fuel, String "034" rest =>
      '(text, rest') ← parse_string (String.length rest) rest;
      Ok (PyStr text, rest')
  | S fuel, String "[" rest =>
      match skip_ws rest with
      | String "]" rest' => Ok (PyList [], rest')
      | rest' =>
          '(v, rest'') ← parse_value fuel rest';
          '(vs, rest''') ←
            parse_elements (parse_value fuel) (String.length rest'') rest'';
          Ok (PyList (v :: vs), rest''')
      end
  | S fuel, String "{" rest =>
      match skip_ws rest with
      | String "}" rest' => Ok (PyDict ∅, rest')
      | rest' =>
          '(key, v, rest'') ← parse_member (parse_value fuel) rest';
          '(kvs, rest''') ←
            parse_members (parse_value fuel) (String.length rest'') rest'';
          Ok (PyDict (py_dict ((key, v) :: kvs)), rest''')
      end
  | S fuel, _ => parse_literal s
  end.

Definition ref_loads (text : string) : result pyval :=
  '(v, rest) ← parse_value (S (String.length text)) (skip_ws text);
  if bool_decide (skip_ws rest = "") then Ok v else Raise JSONDecodeError.

(** *** [json.JSONEncoder.encode] *)

Definition hex_digit (n : Z) : ascii :=
  byte (if (n <? 10)%Z then 48 + n else 87 + n).

(** One character of a string, as [ensure_ascii] writes it. *)
Definition encode_char (c : ascii) : result string :=
  let n := ascii_code c in
  if Ascii.eqb c "034" then Ok (String "\" (String "034" ""))
  else if Ascii.eqb c "\" then Ok "\\"
  else if Ascii.eqb c "010" then Ok "\n"
  else if Ascii.eqb c "013" then Ok "\r"
  else if Ascii.eqb c "009" then Ok "\t"
  else if Ascii.eqb c "012" then Ok "\f"
  else if Ascii.eqb c "008" then Ok "\b"
  else if (n <? 32)%Z || (n =? 127)%Z then
    Ok ("\u00" ++ String (hex_digit (n / 16)) (String (hex_digit (n mod 16)) ""))
  else if (n <? 127)%Z then Ok (String c "")
  else Raise NotImplementedError.

Fixpoint encode_chars (s : string) : result string :=
  match s with
  | EmptyString => Ok EmptyString
  | String c s' =>
      head ← encode_char c;
      tail ← encode_chars s';
      Ok (head ++ tail)
  end.

Definition encode_string (s : string) : result string :=
  body ← encode_chars s;
  Ok (String "034" body ++ String "034" "").

Fixpoint join (sep : string) (parts : list string) : string :=
  match parts with
  | [] => ""
  | [part] => part
  | part :: parts' => part ++ sep ++ join sep parts'
  end.

(** The values the encoder writes without [default]. *)
Definition encode_scalar (v : pyval) : result string :=
  match v with
  | PyNone => Ok "null"
  | PyBool true => Ok "true"
  | PyBool false => Ok "false"
  | PyInt n => Ok (pretty n)
  | PyFloat numeral => Ok numeral
  | PyStr s => encode_string s
  | _ => Raise NotImplementedError
  end.

Fixpoint ref_encode (coerce : coercion) (v : pyval) : result string :=
  match v with
  | PyList l | PyTuple l =>
      items ← foldr (fun x acc =>
                       item ← ref_encode coerce x;
                       items ← acc;
                       Ok (item :: items)) (Ok []) l;
      Ok ("[" ++ join ", " items ++ "]")
  | PyDict d =>
      members ← map_fold (fun key x acc =>
                            members ← acc;
                            name ← encode_string key;
                            item ← ref_encode coerce x;
                            Ok (app members [name ++ ": " ++ item]))
                         (Ok []) d;
      Ok ("{" ++ join ", " members ++ "}")
  | PyTime _ | PyObj _ =>
      coerced ← coerce v;
      encode_scalar coerced
  | _ => encode_scalar v
  end.

(** *** The instance *)

Lemma ref_format_empty kwargs : ref_format "" kwargs = Ok "".
Proof. reflexivity. Qed.

Lemma ref_format_exception_nonempty exc_info lines :
  ref_format_exception exc_info = Ok lines -> lines <> [].
Proof.
  unfold ref_format_exception, mbind, result_bind.
  intros Hret ->. repeat (case_match; simplify_eq).
Qed.

Definition ref_lib : PyLib := {|
  str_format := ref_format;
  str_format_empty := ref_format_empty;
  format_exception := ref_format_exception;
  format_exception_nonempty := ref_format_exception_nonempty;
  py_str := ref_str;
  json_loads := ref_loads;
  json_encode := ref_encode;
  gethostname := Ok "localhost";
  gethostbyname := fun name =>
    if bool_decide (name = "localhost") then Ok "127.0.0.1" else Raise OSError
|}.

(** The text with each apostrophe read as a double quote, to write JSON. *)
Definition dq (text : string) : string := replace_char "'" "034" text.

(** ** Sample inputs *)

Definition now0 : string := "2026-11-04T09:30:00.000000Z".

(** The record of [logging.getLogger('app').info(msg, extra=extra)], made
    with no arguments for the message: [getMessage()] is [str(msg)]. *)
Definition log_record (msg exc_info : pyval) (extra : pydict) : LogRecord := {|
  __dict__ :=
    extra ∪
    list_to_map
      [("name", PyStr "app"); ("msg", msg); ("args", PyTuple []);
       ("levelname", PyStr "INFO"); ("levelno", PyInt 20);
       ("pathname", PyStr "/srv/app/main.py"); ("filename", PyStr "main.py");
       ("module", PyStr "main"); ("exc_info", exc_info); ("exc_text", PyNone);
       ("stack_info", PyNone); ("lineno", PyInt 42); ("funcName", PyStr "run");
       ("created", PyFloat "1793784600.0"); ("msecs", PyFloat "0.0");
       ("relativeCreated", PyFloat "12.5"); ("thread", PyInt 140);
       ("threadName", PyStr "MainThread");
       ("processName", PyStr "MainProcess"); ("process", PyInt 4711)];
  getMessage := ref_str msg
|}.

(** The formatter that [LogstashFormatter(fmt)] constructs. *)
Definition formatter_of (fmt : string) : result LogstashFormatter :=
  __init__ (H := ref_lib) (Some (dq fmt)) None (_default_json_default (H := ref_lib)).

(** The formatter whose configuration is [{"extra": extra}], on the host
    of [ref_lib]. *)
Definition formatter_with (extra : pydict) : LogstashFormatter := {|
  _fmt := PyDict {["extra" := PyDict extra]};
  json_default := _default_json_default (H := ref_lib);
  json_cls := None;
  defaults := PyDict extra;
  source_host := PyStr "localhost";
  host := PyStr "127.0.0.1"
|}.

(** The ['@fields'] object of an output dictionary. *)
Definition fields_of (logr : pydict) : option pydict :=
  match logr !! "@fields" with
  | Some (PyDict out) => Some out
  | _ => None
  end.

(** What an output holds under a top-level key, and under a key of its
    ['@fields']. *)
Definition output_key (output : result pydict) (key : string)
  : result (option pyval) :=
  logr ← output; Ok (logr !! key).

Definition output_field (output : result pydict) (key : string)
  : result (option pyval) :=
  logr ← output; Ok (out ← fields_of logr; out !! key).

(** [ValueError('boom')] caught by the caller. *)
Definition boom : pyval :=
  PyTuple [PyObj "ValueError"; PyObj "boom";
           PyObj "  File '/srv/app/main.py', line 42, in run"].

(** *** A configuration with a top-level default, a default named like a
    reserved key and nested defaults, and what [format] makes of a record
    with one extra field *)

Definition nested_a : pydict :=
  list_to_map
    [("team", PyStr "core"); ("user", PyStr "nobody"); ("lineno", PyInt 1)].

Definition extra_a : pydict :=
  list_to_map
    [("env", PyStr "prod"); ("logging_type", PyStr "file");
     ("@fields", PyDict nested_a)].

Definition record_a : LogRecord :=
  log_record (PyStr "hello {user}") PyNone {["user" := PyStr "world"]}.

Definition fields_a : pydict :=
  list_to_map
    [("user", PyStr "world"); ("args", PyTuple []); ("stack_info", PyNone);
     ("created", PyFloat "1793784600.0")].

Definition logr_a : pydict :=
  list_to_map
    [("env", PyStr "prod"); ("@message", PyStr "hello world");
     ("@timestamp", PyStr now0); ("@source_host", PyStr "localhost");
     ("@host", PyStr "127.0.0.1"); ("loglevel", PyStr "INFO");
     ("worker_guid", PyStr "app"); ("logging_type", PyStr "redis");
     ("@fields", PyDict (list_to_map
        [("team", PyStr "core"); ("user", PyStr "world"); ("lineno", PyInt 1);
         ("args", PyTuple []); ("stack_info", PyNone);
         ("created", PyFloat "1793784600.0")]))].

(** *** A record with exception info, a record whose message is a
    mapping, a record whose message names no field *)

Definition record_b : LogRecord := log_record (PyStr "failed") boom ∅.

Definition traceback_b : list string :=
  ["Traceback (most recent call last):" ++ String "010" "";
   "  File '/srv/app/main.py', line 42, in run";
   "ValueError: boom" ++ String "010" ""].

Definition message_c : pydict :=
  list_to_map [("job", PyStr "sync"); ("lineno", PyInt 7); ("name", PyStr "jobs")].

Definition record_c : LogRecord := log_record (PyDict message_c) PyNone ∅.

Definition record_d : LogRecord := log_record (PyStr "hi {nobody}") PyNone ∅.

(** A message with a brace that opens no field. *)
Definition record_e : LogRecord := log_record (PyStr "payload = {") PyNone ∅.


Definition logr_c : pydict :=
  list_to_map
    [("@message", PyStr ""); ("@timestamp", PyStr now0);
     ("@source_host", PyStr "localhost"); ("@host", PyStr "127.0.0.1");
     ("loglevel", PyStr "INFO"); ("worker_guid", PyStr "jobs");
     ("logging_type", PyStr "redis");
     ("@fields", PyDict (list_to_map
        [("job", PyStr "sync"); ("args", PyTuple []); ("stack_info", PyNone);
         ("created", PyFloat "1793784600.0")]))].
(** *** A record whose arguments do not fit its message, a mapping message
    with an [exc_info] key that is no triple, and a library on a host
    whose name cannot be resolved *)

(** The record of [logging.getLogger('app').info('%d items', 'many')]:
    [getMessage()] raises [TypeError]. *)
Definition record_f : LogRecord := {|
  __dict__ :=
    <["args" := PyTuple [PyStr "many"]]>
      (__dict__ (log_record (PyStr "%d items") PyNone ∅));
  getMessage := Raise TypeError
|}.

Definition message_g : pydict := {["exc_info" := PyInt 3]}.

Definition record_g : LogRecord := log_record (PyDict message_g) PyNone ∅.

Definition offline_lib : PyLib := {|
  str_format := ref_format;
  str_format_empty := ref_format_empty;
  format_exception := ref_format_exception;
  format_exception_nonempty := ref_format_exception_nonempty;
  py_str := ref_str;
  json_loads := ref_loads;
  json_encode := ref_encode;
  gethostname := Raise OSError;
  gethostbyname := fun _ => Raise OSError
|}.

(** A later instant. *)
Definition now1 : string := "2026-11-04T09:30:01.250000Z".

(** *** A record with a field named [exception], with and without
    exception info, and nested defaults under the names of its fields *)

Definition nested_h : pydict :=
  list_to_map [("exception", PyStr "dflt"); ("user", PyStr "nobody")].

Definition extra_h : pydict := {["@fields" := PyDict nested_h]}.

Definition supplied_h : pydict :=
  list_to_map [("exception", PyStr "mine"); ("user", PyStr "world")].


Definition record_i : LogRecord := log_record (PyStr "failed") PyNone supplied_h.


(** * The store model

    The pure model above gives every use of a dictionary a value of its
    own. Here dictionaries and lists are objects in a store and a value
    refers to them, as in Python: [copy] allocates, [update], [pop] and
    item assignment write to an object in place, and two references to an
    object see each other's writes. [format] is embedded a second time over
    the store, to follow which objects it writes to. *)

Definition loc := positive.

Inductive sval :=
| SNone
| SBool (b : bool)
| SInt (n : Z)
| SFloat (numeral : string)
| SStr (s : string)
| STuple (l : list sval)
| STime (iso : string)
| SObj (text : string)
| SRef (l : loc).

(** A mutable object: a dictionary (also the attribute dictionary of an
    instance) or a list. *)
Inductive sobj :=
| SDict (d : gmap string sval)
| SList (l : list sval).

Abbreviation sdict := (gmap string sval).
Abbreviation store := (gmap loc sobj).

(** A computation that reads and writes the store and may raise. *)
Definition M (A : Type) : Type := store -> store * result A.

#[global] Instance M_ret : MRet M := fun _ a σ => (σ, Ok a).
#[global] Instance M_bind : MBind M := fun _ _ f m σ =>
  match m σ with
  | (σ', Ok a) => f a σ'
  | (σ', Raise e) => (σ', Raise e)
  end.

Definition lift {A} (r : result A) : M A := fun σ => (σ, r).
Definition get_store : M store := fun σ => (σ, Ok σ).

(** A new object, at a location that is not in use. *)
Definition alloc (o : sobj) : M loc := fun σ =>
  let l := fresh (dom σ) in (<[l := o]> σ, Ok l).

Definition write (l : loc) (o : sobj) : M unit := fun σ => (<[l := o]> σ, Ok ()).

(** The dictionary that [v] refers to; [v] has none of the methods of a
    dictionary otherwise. *)
Definition as_dict (σ : store) (v : sval) : option (loc * sdict) :=
  match v with
  | SRef l =>
      match σ !! l with
      | Some (SDict d) => Some (l, d)
      | _ => None
      end
  | _ => None
  end.

Definition the_dict (v : sval) : M (loc * sdict) := fun σ =>
  (σ, match as_dict σ v with
      | Some ld => Ok ld
      | None => Raise AttributeError
      end).

Definition s_truthy (v : sval) : M bool := fun σ =>
  (σ, Ok match v with
         | SNone => false
         | SBool b => b
         | SInt n => negb (n =? 0)%Z
         | SFloat f => negb (numeral_is_zero f)
         | SStr s => negb (bool_decide (s = ""))
         | STuple l => negb (bool_decide (l = []))
         | STime _ | SObj _ => true
         | SRef l =>
             match σ !! l with
             | Some (SDict d) => negb (bool_decide (size d = 0))
             | Some (SList l) => negb (bool_decide (l = []))
             | None => true
             end
         end).

(** [d.update(new)], [d.pop(key)], [d.pop(key, dflt)] and [d[key] = v] on
    the dictionary at [l]. *)
Definition s_update (l : loc) (new : sdict) : M unit :=
  '(_, d) ← the_dict (SRef l); write l (SDict (new ∪ d)).

Definition s_pop (l : loc) (key : string) : M sval :=
  '(_, d) ← the_dict (SRef l);
  match d !! key with
  | Some v => _ ← write l (SDict (delete key d)); mret v
  | None => lift (Raise KeyError)
  end.

Definition s_pop_default (l : loc) (key : string) (dflt : sval) : M sval :=
  '(_, d) ← the_dict (SRef l);
  _ ← write l (SDict (delete key d));
  mret (default dflt (d !! key)).

Definition s_setitem (l : loc) (key : string) (v : sval) : M unit :=
  '(_, d) ← the_dict (SRef l); write l (SDict (<[key := v]> d)).

(** [v.copy()]: a new object with the items of the one [v] refers to. *)
Definition s_copy (v : sval) : M loc := fun σ =>
  match v with
  | SRef l =>
      match σ !! l with
      | Some o => alloc o σ
      | None => (σ, Raise AttributeError)
      end
  | _ => (σ, Raise AttributeError)
  end.

(** [d[key]] on the dictionary at [l]. *)
Definition s_getitem (l : loc) (key : string) : M sval :=
  '(_, d) ← the_dict (SRef l);
  match d !! key with
  | Some v => mret v
  | None => lift (Raise KeyError)
  end.

(** [obj.name], on the attribute dictionary of [obj]. *)
Definition s_getattr (obj : loc) (name : string) : M sval :=
  '(_, attrs) ← the_dict (SRef obj);
  match attrs !! name with
  | Some v => mret v
  | None => lift (Raise AttributeError)
  end.

Definition s_dict (pairs : list (string * sval)) : sdict :=
  foldl (fun m kv => <[kv.1 := kv.2]> m) ∅ pairs.

(** The library over the store. Its calls read the store and do not write
    to it. *)
Class StoreLib := {
  (** [record.getMessage()] *)
  s_getMessage : store -> loc -> result string;
  (** [template.format( **kwargs )] *)
  s_str_format : store -> string -> sdict -> result string;
  (** [traceback.format_exception( *exc_info )] *)
  s_format_exception : store -> sval -> result (list string);
  (** [json.dumps(obj, default=coerce, cls=cls)] *)
  s_json_dumps : store -> sval -> sval -> sval -> result string
}.

Definition s_build_fields (defaults fields : sval) : M loc :=
  '(_, d) ← the_dict defaults;
  empty ← alloc (SDict ∅);
  '(_, nested) ← the_dict (default (SRef empty) (d !! "@fields"));
  '(_, fd) ← the_dict fields;
  alloc (SDict (s_dict (map_to_list nested ++ map_to_list fd))).

(** [format], lines 73-80: the working dictionary and the message text.
    [record] is the location of the attribute dictionary of the record. *)
Definition s_resolve_message `{StoreLib} (record : loc) : M (loc * string) :=
  '(_, attrs) ← the_dict (SRef record);
  fields ← alloc (SDict attrs);
  raw ← s_getattr record "msg";
  σ ← get_store;
  match as_dict σ raw with
  | Some (_, m) =>
      _ ← s_update fields m;
      _ ← s_pop fields "msg";
      mret (fields, "")
  | None =>
      msg ← lift (s_getMessage σ record);
      mret (fields, msg)
  end.

(** [format], lines 82-85. *)
Definition s_interpolate `{StoreLib} (msg : string) (fields : loc) : M string :=
  '(_, kwargs) ← the_dict (SRef fields);
  σ ← get_store;
  lift match s_str_format σ msg kwargs with
       | Ok text => Ok text
       | Raise KeyError | Raise IndexError => Ok msg
       | Raise e => Raise e
       end.

(** [format], lines 87-89. *)
Definition s_add_exception `{StoreLib} (fields : loc) : M unit :=
  '(_, fd) ← the_dict (SRef fields);
  has_exc_info ← s_truthy (default SNone (fd !! "exc_info"));
  if (has_exc_info : bool) then
    exc_info ← s_getitem fields "exc_info";
    σ ← get_store;
    lines ← lift (s_format_exception σ exc_info);
    formatted ← alloc (SList (SStr <$> lines));
    s_setitem fields "exception" (SRef formatted)
  else mret ().

(** [format], lines 95-99. *)
Definition s_strip_unwanted (fields : loc) : M unit :=
  foldr (fun tag rest => _ ← s_pop_default fields tag (SStr ""); rest)
        (mret ()) unwanted_tags.

(** [format], lines 87-99. *)
Definition s_extract_fields `{StoreLib} (fields : loc) : M (sval * sval) :=
  _ ← s_add_exception fields;
  loglevel ← s_pop_default fields "levelname" (SStr "");
  worker_guid ← s_pop_default fields "name" (SStr "");
  _ ← s_strip_unwanted fields;
  mret (loglevel, worker_guid).

(** [format], lines 101-110. [self] is the location of the attribute
    dictionary of the formatter. *)
Definition s_assemble (self : loc) (now msg : string)
    (loglevel worker_guid : sval) (fields : loc) : M loc :=
  defaults ← s_getattr self "defaults";
  logr ← s_copy defaults;
  _ ← the_dict (SRef logr);
  source_host ← s_getattr self "source_host";
  host ← s_getattr self "host";
  built ← s_build_fields (SRef logr) (SRef fields);
  items ← alloc (SDict (<["@message" := SStr msg]>
                       (<["@timestamp" := SStr now]>
                       (<["@source_host" := source_host]>
                       (<["loglevel" := loglevel]>
                       (<["worker_guid" := worker_guid]>
                       (<["logging_type" := SStr "redis"]>
                       (<["@host" := host]>
                       (<["@fields" := SRef built]> ∅)))))))));
  '(_, new) ← the_dict (SRef items);
  _ ← s_update logr new;
  mret logr.

(** [format] up to [json.dumps]: the location of [logr]. *)
Definition s_format_logr `{StoreLib} (self record : loc) (now : string) : M loc :=
  '(fields, msg) ← s_resolve_message record;
  msg ← s_interpolate msg fields;
  '(loglevel, worker_guid) ← s_extract_fields fields;
  s_assemble self now msg loglevel worker_guid fields.

Definition s_format `{StoreLib} (self record : loc) (now : string) : M string :=
  logr ← s_format_logr self record now;
  json_default ← s_getattr self "json_default";
  json_cls ← s_getattr self "json_cls";
  σ ← get_store;
  lift (s_json_dumps σ (SRef logr) json_default json_cls).

(** ** Vocabulary of the properties of the store model *)

(** No entry of a dictionary refers to an object that is not in the
    store. *)
Definition valid (σ : store) (v : sval) : Prop :=
  match v with
  | SRef l => is_Some (σ !! l)
  | _ => True
  end.

Definition closed (σ : store) : Prop :=
  forall l d k v, σ !! l = Some (SDict d) -> d !! k = Some v -> valid σ v.

(** The fields a record supplies: its attributes, under the keys of its
    message when the message is a dictionary. *)
Definition s_supplied (σ : store) (record : loc) : sdict :=
  match as_dict σ (SRef record) with
  | Some (_, attrs) =>
      match as_dict σ (default SNone (attrs !! "msg")) with
      | Some (_, m) => m ∪ attrs
      | None => attrs
      end
  | None => ∅
  end.

(** The dictionary under ['@fields'] in the configured defaults, empty when
    there is none. *)
Definition s_nested_defaults (σ : store) (self : loc) : sdict :=
  match as_dict σ (SRef self) with
  | Some (_, attrs) =>
      match as_dict σ (default SNone (attrs !! "defaults")) with
      | Some (_, d) =>
          match as_dict σ (default SNone (d !! "@fields")) with
          | Some (_, nested) => nested
          | None => ∅
          end
      | None => ∅
      end
  | None => ∅
  end.

(** Where an entry [k := v] of the ['@fields'] of a call comes from, [σ]
    being the store when the call starts: from the record, from the nested
    defaults, or it is the list of traceback lines that the call makes. *)
Definition provenance (σ : store) (self record : loc) (k : string) (v : sval)
  : Prop :=
  s_supplied σ record !! k = Some v \/
  s_nested_defaults σ self !! k = Some v \/
  (k = "exception" /\ exists l, v = SRef l /\ σ !! l = None).

(** ** A reference instance of the library over the store *)

(** The value that [v] shows in [σ], read through its references; a
    reference that is met after [fuel] others shows as [None]. *)
Fixpoint snapshot (fuel : nat) (σ : store) : sval -> pyval :=
  fix go (v : sval) : pyval :=
    match v with
    | SNone => PyNone
    | SBool b => PyBool b
    | SInt n => PyInt n
    | SFloat numeral => PyFloat numeral
    | SStr s => PyStr s
    | STuple l => PyTuple (map go l)
    | STime iso => PyTime iso
    | SObj text => PyObj text
    | SRef l =>
        match fuel, σ !! l with
        | S fuel, Some (SDict d) => PyDict (snapshot fuel σ <$> d)
        | S fuel, Some (SList vs) => PyList (map (snapshot fuel σ) vs)
        | _, _ => PyNone
        end
    end.

Definition view (σ : store) (v : sval) : pyval := snapshot (size σ) σ v.

(** The calls of [ref_lib], on what their arguments show in the store. *)
Definition ref_store_lib : StoreLib := {|
  s_getMessage σ record :=
    match σ !! record with
    | Some (SDict attrs) => ref_str (view σ (default SNone (attrs !! "msg")))
    | _ => Raise AttributeError
    end;
  s_str_format σ template kwargs := ref_format template (view σ <$> kwargs);
  s_format_exception σ exc_info := ref_format_exception (view σ exc_info);
  s_json_dumps σ obj _ _ :=
    ref_encode (_default_json_default (H := ref_lib)) (view σ obj)
|}.

(** ** A sample store

    The formatter of [{"extra": {"tags": ["blue"], "@fields": {"roles":
    ["web"]}}}] at location 1, its defaults at 2, and two records, at 7
    and 8; the message of the second one is the dictionary at 9. *)
Definition sample_store : store :=
  list_to_map
    [(1%positive, SDict (list_to_map
        [("defaults", SRef 2%positive); ("source_host", SStr "localhost");
         ("host", SStr "127.0.0.1");
         ("json_default", SObj "<function _default_json_default>");
         ("json_cls", SNone)]));
     (2%positive, SDict (list_to_map [("tags", SRef 3%positive); ("@fields", SRef 4%positive)]));
     (3%positive, SList [SStr "blue"]);
     (4%positive, SDict (list_to_map [("roles", SRef 6%positive)]));
     (6%positive, SList [SStr "web"]);
     (7%positive, SDict (list_to_map
        [("msg", SStr "first {user}"); ("name", SStr "app");
         ("levelname", SStr "INFO"); ("lineno", SInt 42);
         ("exc_info", SNone); ("user", SStr "ann")]));
     (8%positive, SDict (list_to_map
        [("msg", SRef 9%positive); ("name", SStr "app"); ("levelname", SStr "INFO");
         ("lineno", SInt 43); ("exc_info", SNone)]));
     (9%positive, SDict (list_to_map [("job", SStr "sync")]))].

(** Two calls in a row, and the calls up to [json.dumps]. *)
Definition run_1 : store * result string :=
  s_format (H := ref_store_lib) 1%positive 7%positive now0 sample_store.

Definition run_2 : store * result string :=
  s_format (H := ref_store_lib) 1%positive 8%positive now0 run_1.1.

(** What the document of a run holds under a key of its ['@fields']. *)
Definition s_output_field (run : store * result loc) (key : string)
  : option sval :=
  match run with
  | (σ, Ok logr) =>
      '(_, items) ← as_dict σ (SRef logr);
      '(_, out) ← as_dict σ (default SNone (items !! "@fields"));
      out !! key
  | (_, Raise _) => None
  end.
(** The first call up to [json.dumps]. *)
Definition logr_run_1 : store * result loc :=
  s_format_logr (H := ref_store_lib) 1%positive 7%positive now0 sample_store.

(** ** Vocabulary of the proofs over the store *)

(** [Q] holds of the store and of the outcome of [m] run from [σ]. *)
Definition wp {A} (m : M A) (Q : store -> result A -> Prop) (σ : store) : Prop :=
  Q (m σ).1 (m σ).2.

(** What holds after a step that started in [σ0] or later: the objects of
    [σ0] are as they were, and no dictionary has a dangling entry. *)
Definition post {A} (σ0 : store) (Q : A -> store -> Prop)
  : store -> result A -> Prop :=
  fun σ r => σ0 ⊆ σ /\ closed σ /\ forall a, r = Ok a -> Q a σ.

(** The working dictionary [fields] of a call on [record] that started in
    [σ0]: a new object, whose entries the record supplies, the traceback
    lines apart. *)
Definition from_record (σ0 : store) (record : loc) (k : string) (v : sval) : Prop :=
  s_supplied σ0 record !! k = Some v \/
  (k = "exception" /\ exists l, v = SRef l /\ σ0 !! l = None).

Definition working (σ0 : store) (record fields : loc) (σ : store) : Prop :=
  σ0 !! fields = None /\
  exists fd, σ !! fields = Some (SDict fd) /\
             forall k v, fd !! k = Some v -> from_record σ0 record k v.

(** The ['@fields'] dictionary of the document at [logr]: a new object,
    [built], whose entries have the provenance [P]. *)
Definition fields_object (σ0 : store) (P : string -> sval -> Prop)
    (logr : loc) (σ : store) : Prop :=
  exists items built out,
    σ !! logr = Some (SDict items) /\
    items !! "@fields" = Some (SRef built) /\
    σ0 !! built = None /\
    σ !! built = Some (SDict out) /\
    forall k v, out !! k = Some v -> P k v.

Definition closed_object (σ : store) (o : sobj) : Prop :=
  match o with
  | SDict d => map_Forall (fun _ v => valid σ v) d
  | SList _ => True
  end.

(** * Properties *)

(** ** Dictionaries *)

Lemma foldl_insert_union {A} (pairs : list (string * A)) (m : gmap string A) :
  foldl (fun m kv => <[kv.1 := kv.2]> m) m pairs =
  list_to_map (reverse pairs) ∪ m.
Proof.
  revert m. induction pairs as [|[k v] pairs IH]; intros m; simpl.
  - by rewrite (left_id_L ∅ (∪)).
  - rewrite IH, reverse_cons, list_to_map_app. simpl.
    rewrite <- (assoc_L (∪)). f_equal.
    by rewrite insert_empty, <- insert_union_singleton_l.
Qed.

Lemma list_to_map_reverse_items {A} (d : gmap string A) :
  list_to_map (reverse (map_to_list d)) = d.
Proof.
  rewrite <- (list_to_map_to_list d) at 2.
  apply list_to_map_proper.
  - rewrite fmap_reverse, reverse_Permutation. apply NoDup_fst_map_to_list.
  - apply reverse_Permutation.
Qed.

Lemma foldl_insert_items {A} (a b : gmap string A) :
  foldl (fun m kv => <[kv.1 := kv.2]> m) ∅ (map_to_list a ++ map_to_list b)
  = b ∪ a.
Proof.
  rewrite foldl_app, !foldl_insert_union.
  by rewrite !list_to_map_reverse_items, (right_id_L ∅ (∪)).
Qed.

Lemma py_dict_items (a b : pydict) :
  py_dict (map_to_list a ++ map_to_list b) = b ∪ a.
Proof. apply foldl_insert_items. Qed.

Lemma s_dict_items (a b : sdict) :
  s_dict (map_to_list a ++ map_to_list b) = b ∪ a.
Proof. apply foldl_insert_items. Qed.

Lemma strip_unwanted_lookup (fields : pydict) k :
  strip_unwanted fields !! k =
  if decide (k ∈ unwanted_tags) then None else fields !! k.
Proof.
  unfold strip_unwanted. generalize unwanted_tags as tags.
  intros tags. revert fields.
  induction tags as [|tag tags IH]; intros fields; cbn [foldl].
  - case_decide as Hin; [by apply elem_of_nil in Hin | done].
  - rewrite IH. cbn [dict_pop_default snd].
    destruct (decide (k ∈ tags)) as [Hin|Hout].
    + by rewrite decide_True by (by right).
    + destruct (decide (k = tag)) as [->|Hne].
      * rewrite decide_True by (by left). apply lookup_delete_eq.
      * rewrite decide_False; [by rewrite lookup_delete_ne|].
        by intros [->|?]%elem_of_cons.
Qed.

(** ** The steps of [format] *)

Section Steps.
Context `{lib : PyLib}.
Implicit Types (self : LogstashFormatter) (record : LogRecord).
Implicit Types (fields d nested logr : pydict) (msg now : string).

Lemma nested_defaults_None self d :
  defaults self = PyDict d -> d !! "@fields" = None ->
  nested_defaults self = ∅.
Proof. unfold nested_defaults. by intros -> ->. Qed.

Lemma nested_defaults_Some self d nested :
  defaults self = PyDict d -> d !! "@fields" = Some (PyDict nested) ->
  nested_defaults self = nested.
Proof. unfold nested_defaults. by intros -> ->. Qed.

Lemma build_fields_ok self d fields :
  defaults_ok self d ->
  _build_fields (PyDict d) fields = Ok (fields ∪ nested_defaults self).
Proof.
  intros [Hd [Hnone | [nested Hsome]]]; unfold _build_fields; simpl.
  - rewrite Hnone, (nested_defaults_None _ _ Hd Hnone). simpl.
    by rewrite <- py_dict_items.
  - rewrite Hsome, (nested_defaults_Some _ _ _ Hd Hsome). simpl.
    by rewrite py_dict_items.
Qed.

Lemma build_fields_inv (d : pydict) fields (out : pydict) :
  _build_fields (PyDict d) fields = Ok out ->
  d !! "@fields" = None \/ exists nested, d !! "@fields" = Some (PyDict nested).
Proof.
  unfold _build_fields. simpl. destruct (d !! "@fields") as [v|]; [|by left].
  simpl. destruct v; simpl; try discriminate. right; eauto.
Qed.

Lemma assemble_ok self now msg loglevel worker_guid fields d :
  defaults_ok self d ->
  assemble self now msg loglevel worker_guid fields =
  Ok (output_items self now msg loglevel worker_guid
        (fields ∪ nested_defaults self) ∪ d).
Proof.
  intros Hok. unfold assemble. destruct Hok as [Hd Hn] eqn:E. clear E.
  rewrite Hd. simpl. by rewrite (build_fields_ok self d fields (conj Hd Hn)).
Qed.

Lemma assemble_inv self now msg loglevel worker_guid fields logr :
  assemble self now msg loglevel worker_guid fields = Ok logr ->
  exists d, defaults_ok self d /\
    logr = output_items self now msg loglevel worker_guid
             (fields ∪ nested_defaults self) ∪ d.
Proof.
  intros Hrun. assert (exists d, defaults_ok self d) as [d Hok].
  { unfold assemble in Hrun. destruct (defaults self) as [| | | | | | |d| |] eqn:Hd;
      try discriminate; simpl in Hrun.
    exists d. split; [done|].
    destruct (_build_fields (PyDict d) fields) eqn:Hb; [|discriminate].
    by eapply build_fields_inv. }
  exists d. split; [done|]. rewrite (assemble_ok _ _ _ _ _ _ d Hok) in Hrun.
  by injection Hrun.
Qed.

Lemma format_logr_ok self record now msg loglevel worker_guid fields d :
  prepare record = Ok (msg, loglevel, worker_guid, fields) ->
  defaults_ok self d ->
  format_logr self record now =
  Ok (output_items self now msg loglevel worker_guid
        (fields ∪ nested_defaults self) ∪ d).
Proof.
  intros Hprep Hok. unfold format_logr. rewrite Hprep. simpl.
  by apply assemble_ok.
Qed.

Lemma format_logr_inv self record now logr :
  format_logr self record now = Ok logr ->
  exists msg loglevel worker_guid fields d,
    prepare record = Ok (msg, loglevel, worker_guid, fields) /\
    defaults_ok self d /\
    logr = output_items self now msg loglevel worker_guid
             (fields ∪ nested_defaults self) ∪ d.
Proof.
  unfold format_logr. destruct (prepare record) as [[[[msg ll] wg] fields]|] eqn:Hp;
    [|discriminate].
  simpl. intros (d & Hok & ->)%assemble_inv. by exists msg, ll, wg, fields, d.
Qed.

Lemma prepare_working_fields record msg loglevel worker_guid fields :
  prepare record = Ok (msg, loglevel, worker_guid, fields) ->
  working_fields record = Ok fields.
Proof.
  unfold prepare, working_fields.
  destruct (resolve_message record) as [[fields0 msg0]|]; [|discriminate]. simpl.
  destruct (interpolate msg0 fields0); [|discriminate]. simpl.
  destruct (extract_fields fields0) as [[[ll wg] f]|]; [|discriminate]. simpl.
  by intros [= _ _ _ ->].
Qed.

(** What the dictionary literal holds. *)
Lemma output_items_dom self now msg loglevel worker_guid built :
  dom (output_items self now msg loglevel worker_guid built) = reserved_keys.
Proof.
  unfold output_items, reserved_keys.
  rewrite !dom_insert_L, dom_empty_L. set_solver.
Qed.

Lemma output_items_fields self now msg loglevel worker_guid built :
  output_items self now msg loglevel worker_guid built !! "@fields"
  = Some (PyDict built).
Proof. reflexivity. Qed.

Lemma output_items_not_reserved self now msg loglevel worker_guid built k :
  k ∉ reserved_keys ->
  output_items self now msg loglevel worker_guid built !! k = None.
Proof. rewrite <- (output_items_dom self now msg loglevel worker_guid built).
  apply not_elem_of_dom. Qed.
End Steps.

(** ** The working field set *)

Section WorkingSet.
Context `{lib : PyLib}.
Implicit Types (self : LogstashFormatter) (record : LogRecord).
Implicit Types (fields d nested logr m : pydict) (msg now : string).

Lemma resolve_message_dict record m :
  getattr record "msg" = Ok (PyDict m) ->
  resolve_message record = Ok (delete "msg" (m ∪ __dict__ record), "").
Proof.
  unfold resolve_message, getattr.
  destruct (__dict__ record !! "msg") as [v|] eqn:Hmsg; [|discriminate].
  intros [= ->]. simpl. unfold dict_pop.
  destruct ((m ∪ __dict__ record) !! "msg") eqn:Hm; [done|].
  apply lookup_union_None in Hm as [_ Hm]. congruence.
Qed.

Lemma resolve_message_supplied record fields0 msg0 k :
  resolve_message record = Ok (fields0, msg0) -> k <> "msg" ->
  fields0 !! k = supplied_fields record !! k.
Proof.
  unfold resolve_message, supplied_fields, getattr.
  destruct (__dict__ record !! "msg") as [v|] eqn:Hmsg; [|discriminate].
  simpl. intros Hrun Hk.
  destruct v; simpl in Hrun;
    try (destruct (getMessage record); simplify_eq/=; done).
  unfold dict_pop in Hrun.
  destruct ((d ∪ __dict__ record) !! "msg"); simplify_eq/=.
  by rewrite lookup_delete_ne.
Qed.

Lemma resolve_message_msg_dict record fields0 msg0 m :
  getattr record "msg" = Ok (PyDict m) ->
  resolve_message record = Ok (fields0, msg0) ->
  msg0 = "" /\ fields0 !! "msg" = None.
Proof.
  intros Hm. rewrite (resolve_message_dict _ _ Hm). intros [= <- <-].
  split; [done | apply lookup_delete_eq].
Qed.

Lemma add_exception_lookup fields fields' k :
  add_exception fields = Ok fields' -> k <> "exception" ->
  fields' !! k = fields !! k.
Proof.
  unfold add_exception. intros Hrun Hk.
  destruct (py_truthy _); [|by simplify_eq].
  simpl in Hrun. destruct (fields !! "exc_info"); [|discriminate].
  simpl in Hrun. destruct (format_exception _); simplify_eq/=.
  by rewrite lookup_insert_ne.
Qed.

Lemma add_exception_truthy fields fields' :
  add_exception fields = Ok fields' ->
  py_truthy (default PyNone (fields !! "exc_info")) = true ->
  exists lines,
    format_exception (default PyNone (fields !! "exc_info")) = Ok lines /\
    lines <> [] /\
    fields' = <["exception" := PyList (PyStr <$> lines)]> fields.
Proof.
  unfold add_exception. intros Hrun Ht. rewrite Ht in Hrun.
  simpl in Hrun. destruct (fields !! "exc_info") as [ei|]; [|discriminate].
  simpl in *. destruct (format_exception ei) as [lines|] eqn:Hf; simplify_eq/=.
  exists lines. split_and!; [done | by eapply format_exception_nonempty | done].
Qed.

Lemma add_exception_falsy fields fields' :
  add_exception fields = Ok fields' ->
  py_truthy (default PyNone (fields !! "exc_info")) = false ->
  fields' = fields.
Proof. unfold add_exception. intros Hrun Ht. rewrite Ht in Hrun. by simplify_eq. Qed.

Lemma extract_fields_inv fields0 loglevel worker_guid fields :
  extract_fields fields0 = Ok (loglevel, worker_guid, fields) ->
  exists fields1,
    add_exception fields0 = Ok fields1 /\
    loglevel = default (PyStr "") (fields1 !! "levelname") /\
    worker_guid = default (PyStr "") (delete "levelname" fields1 !! "name") /\
    fields = strip_unwanted (delete "name" (delete "levelname" fields1)).
Proof.
  unfold extract_fields. destruct (add_exception fields0) as [fields1|];
    [|discriminate].
  simpl. intros [= <- <- <-]. by exists fields1.
Qed.

Lemma removed_names_spec k :
  k ∉ removed_names <-> k <> "levelname" /\ k <> "name" /\ k ∉ unwanted_tags.
Proof. unfold removed_names. rewrite !not_elem_of_cons. tauto. Qed.

Lemma extract_fields_removed fields0 loglevel worker_guid fields k :
  extract_fields fields0 = Ok (loglevel, worker_guid, fields) ->
  k ∈ removed_names -> fields !! k = None.
Proof.
  intros (fields1 & Hadd & _ & _ & ->)%extract_fields_inv Hin.
  rewrite strip_unwanted_lookup. case_decide; [done|].
  apply elem_of_cons in Hin as [->|Hin];
    [by rewrite lookup_delete_ne, lookup_delete_eq|].
  apply elem_of_cons in Hin as [->|Hin]; [by rewrite lookup_delete_eq|done].
Qed.

Lemma extract_fields_kept fields0 fields1 loglevel worker_guid fields k :
  extract_fields fields0 = Ok (loglevel, worker_guid, fields) ->
  add_exception fields0 = Ok fields1 ->
  k ∉ removed_names -> fields !! k = fields1 !! k.
Proof.
  intros (fields1' & Hadd & _ & _ & ->)%extract_fields_inv Hadd' Hout.
  assert (fields1' = fields1) as -> by congruence.
  apply removed_names_spec in Hout as (? & ? & ?).
  rewrite strip_unwanted_lookup, decide_False by done.
  by rewrite !lookup_delete_ne.
Qed.

Lemma extract_fields_other fields0 loglevel worker_guid fields k :
  extract_fields fields0 = Ok (loglevel, worker_guid, fields) ->
  k ∉ removed_names ->
  (k = "exception" ->
   py_truthy (default PyNone (fields0 !! "exc_info")) = false) ->
  fields !! k = fields0 !! k.
Proof.
  intros Hex Hout Hexc.
  destruct (extract_fields_inv _ _ _ _ Hex) as (fields1 & Hadd & _).
  rewrite (extract_fields_kept _ _ _ _ _ k Hex Hadd Hout).
  destruct (decide (k = "exception")) as [->|Hk].
  - by rewrite (add_exception_falsy _ _ Hadd (Hexc eq_refl)).
  - by apply add_exception_lookup.
Qed.

Lemma exception_not_removed : "exception" ∉ removed_names.
Proof. apply (bool_decide_unpack _). by vm_compute. Qed.

Lemma extract_fields_exception fields0 loglevel worker_guid fields :
  extract_fields fields0 = Ok (loglevel, worker_guid, fields) ->
  py_truthy (default PyNone (fields0 !! "exc_info")) = true ->
  exists lines,
    format_exception (default PyNone (fields0 !! "exc_info")) = Ok lines /\
    lines <> [] /\
    fields !! "exception" = Some (PyList (PyStr <$> lines)).
Proof.
  intros Hex Ht.
  destruct (extract_fields_inv _ _ _ _ Hex) as (fields1 & Hadd & _).
  destruct (add_exception_truthy _ _ Hadd Ht) as (lines & Hf & Hne & ->).
  exists lines. split_and!; [done..|].
  rewrite (extract_fields_kept _ _ _ _ _ _ Hex Hadd exception_not_removed).
  apply lookup_insert_eq.
Qed.

Lemma working_fields_inv record fields :
  working_fields record = Ok fields ->
  exists fields0 msg0 loglevel worker_guid,
    resolve_message record = Ok (fields0, msg0) /\
    extract_fields fields0 = Ok (loglevel, worker_guid, fields).
Proof.
  unfold working_fields.
  destruct (resolve_message record) as [[fields0 msg0]|]; [|discriminate]. simpl.
  destruct (extract_fields fields0) as [[[ll wg] f]|] eqn:Hex; [|discriminate].
  simpl. intros [= ->]. exists fields0, msg0, ll, wg. by split.
Qed.

(** No removed name is left in the working set. *)
Lemma working_fields_removed record fields k :
  working_fields record = Ok fields -> k ∈ removed_names -> fields !! k = None.
Proof.
  intros (fields0 & msg0 & ll & wg & _ & Hex)%working_fields_inv Hin.
  by eapply extract_fields_removed.
Qed.

(** Any other field of the record is in it, with the record's value;
    the traceback replaces a field named [exception]. *)
Lemma working_fields_supplied record fields k :
  working_fields record = Ok fields -> k ∉ removed_names ->
  (k = "exception" ->
   py_truthy (default PyNone (supplied_fields record !! "exc_info")) = false) ->
  fields !! k = supplied_fields record !! k.
Proof.
  intros (fields0 & msg0 & ll & wg & Hres & Hex)%working_fields_inv Hout Hexc.
  assert (k <> "msg") as Hmsg.
  { intros ->. apply Hout. apply (bool_decide_unpack _). by vm_compute. }
  rewrite <- (resolve_message_supplied _ _ _ _ Hres Hmsg).
  eapply extract_fields_other; [done..|].
  intros Hk. rewrite (resolve_message_supplied _ _ _ "exc_info" Hres) by done.
  by apply Hexc.
Qed.
End WorkingSet.

(** ** The output document *)

Section Document.
Context `{lib : PyLib}.
Implicit Types (self : LogstashFormatter) (record : LogRecord).
Implicit Types (fields d nested logr m out : pydict) (msg now : string).

Lemma format_logr_fields self record now logr :
  format_logr self record now = Ok logr ->
  exists fields,
    working_fields record = Ok fields /\
    fields_of logr = Some (fields ∪ nested_defaults self).
Proof.
  intros (msg & ll & wg & fields & d & Hprep & Hok & ->)%format_logr_inv.
  exists fields. split; [by eapply prepare_working_fields|].
  unfold fields_of. by erewrite lookup_union_Some_l by apply output_items_fields.
Qed.

(** C1, as amended: when the steps before the merge succeed and the
    configured defaults are a mapping (whose ['@fields'], if any, is a
    mapping), [format] returns the serialization of one dictionary whose
    top-level keys are exactly the eight reserved keys together with the
    keys of the configured defaults. *)
Theorem format_top_level_keys self record now msg loglevel worker_guid fields d :
  prepare record = Ok (msg, loglevel, worker_guid, fields) ->
  defaults_ok self d ->
  exists logr,
    format_logr self record now = Ok logr /\
    dom logr = reserved_keys ∪ dom d /\
    format self record now =
      json_dumps (PyDict logr) (json_default self) (json_cls self).
Proof.
  intros Hprep Hok. eexists. split; [by eapply format_logr_ok|].
  split.
  - by rewrite dom_union_L, output_items_dom.
  - unfold format. by erewrite format_logr_ok.
Qed.

(** C2, as amended: a default [k := v] configured under the ['@fields']
    key of the defaults is in the output's ['@fields'] when the record's
    working set has no [k]; a default [k := v] configured at the top of
    the defaults, [k] not being a reserved key, is at the top level of
    the output, and is in ['@fields'] only if the record or the nested
    defaults supply [k]. *)
Theorem configured_defaults_placement self record now logr d fields :
  format_logr self record now = Ok logr ->
  defaults self = PyDict d ->
  working_fields record = Ok fields ->
  exists out,
    fields_of logr = Some out /\
    (forall nested k v,
        d !! "@fields" = Some (PyDict nested) -> nested !! k = Some v ->
        fields !! k = None -> out !! k = Some v) /\
    (forall k v, d !! k = Some v -> k ∉ reserved_keys -> logr !! k = Some v) /\
    (forall k, fields !! k = None -> nested_defaults self !! k = None ->
               out !! k = None).
Proof.
  intros Hrun Hd Hwf.
  destruct (format_logr_fields _ _ _ _ Hrun) as (fields' & Hwf' & Hout).
  assert (fields' = fields) as -> by congruence.
  exists (fields ∪ nested_defaults self). split; [done|]. split_and!.
  - intros nested k v Hn Hk Hnone.
    rewrite (nested_defaults_Some _ _ _ Hd Hn).
    rewrite lookup_union_r; done.
  - intros k v Hk Hres.
    destruct (format_logr_inv _ _ _ _ Hrun)
      as (msg & ll & wg & f & d' & _ & [Hd' _] & ->).
    assert (d' = d) as -> by congruence.
    rewrite lookup_union_r; [done|]. by apply output_items_not_reserved.
  - intros k Hf Hn. by apply lookup_union_None.
Qed.


Lemma prepare_inv record msg loglevel worker_guid fields :
  prepare record = Ok (msg, loglevel, worker_guid, fields) ->
  exists fields0 msg0,
    resolve_message record = Ok (fields0, msg0) /\
    interpolate msg0 fields0 = Ok msg /\
    extract_fields fields0 = Ok (loglevel, worker_guid, fields).
Proof.
  unfold prepare.
  destruct (resolve_message record) as [[fields0 msg0]|]; [|discriminate]. simpl.
  destruct (interpolate msg0 fields0) as [msg'|] eqn:Hi; [|discriminate]. simpl.
  destruct (extract_fields fields0) as [[[ll wg] f]|] eqn:Hex; [|discriminate].
  simpl. intros [= -> -> -> ->]. by exists fields0, msg0.
Qed.

Lemma format_logr_message self record now logr :
  format_logr self record now = Ok logr ->
  exists fields0 msg0 msg,
    resolve_message record = Ok (fields0, msg0) /\
    interpolate msg0 fields0 = Ok msg /\
    logr !! "@message" = Some (PyStr msg).
Proof.
  intros (msg & ll & wg & fields & d & Hprep & Hok & ->)%format_logr_inv.
  destruct (prepare_inv _ _ _ _ _ Hprep) as (fields0 & msg0 & Hres & Hint & _).
  exists fields0, msg0, msg. split_and!; [done..|].
  by apply lookup_union_Some_l.
Qed.

Lemma interpolate_keeps msg0 fields0 e :
  str_format msg0 fields0 = Raise e -> e = KeyError \/ e = IndexError ->
  interpolate msg0 fields0 = Ok msg0.
Proof. unfold interpolate. by intros -> [-> | ->]. Qed.

(** C4, as amended: when [msg.format( **fields )] raises [KeyError] (a
    name that is not a field) or [IndexError] (a positional
    placeholder), the interpolation step gives the message as it was,
    [format] goes on with the remaining steps on that text, and the
    ['@message'] of its output is exactly that text. *)
Theorem interpolation_failure self record now fields0 msg0 e :
  resolve_message record = Ok (fields0, msg0) ->
  str_format msg0 fields0 = Raise e ->
  e = KeyError \/ e = IndexError ->
  interpolate msg0 fields0 = Ok msg0 /\
  format_logr self record now =
    ('(loglevel, worker_guid, fields) ← extract_fields fields0;
     assemble self now msg0 loglevel worker_guid fields) /\
  (forall logr, format_logr self record now = Ok logr ->
                logr !! "@message" = Some (PyStr msg0)).
Proof.
  intros Hres Hfmt He.
  assert (interpolate msg0 fields0 = Ok msg0) as Hkeep
    by by eapply interpolate_keeps.
  split_and!; [done| |].
  - unfold format_logr, prepare. rewrite Hres. simpl. rewrite Hkeep. simpl.
    by destruct (extract_fields fields0) as [[[ll wg] f]|].
  - intros logr (f0 & m0 & m & Hres' & Hint' & Hm)%format_logr_message.
    congruence.
Qed.

(** X10: any other exception of the interpolation leaves [format]: when
    [msg.format( **fields )] raises an exception that is neither
    [KeyError] nor [IndexError] (a [ValueError], on a malformed
    template), [format] raises that exception. *)
Lemma interpolation_error_propagates self record now fields0 msg0 e :
  resolve_message record = Ok (fields0, msg0) ->
  str_format msg0 fields0 = Raise e ->
  e <> KeyError -> e <> IndexError ->
  format_logr self record now = Raise e /\ format self record now = Raise e.
Proof.
  intros Hres Hfmt Hk Hi.
  assert (interpolate msg0 fields0 = Raise e) as Hraise.
  { unfold interpolate. rewrite Hfmt. by destruct e. }
  unfold format, format_logr, prepare. rewrite Hres. simpl.
  by rewrite Hraise.
Qed.
End Document.

Section Document2.
Context `{lib : PyLib}.
Implicit Types (self : LogstashFormatter) (record : LogRecord).
Implicit Types (fields d nested logr m out : pydict) (msg now : string).

Lemma supplied_fields_dict record m :
  getattr record "msg" = Ok (PyDict m) ->
  supplied_fields record = m ∪ __dict__ record.
Proof.
  unfold getattr, supplied_fields.
  destruct (__dict__ record !! "msg"); [|discriminate]. by intros [= ->].
Qed.

(** C5, as amended: when the raw message is a mapping, ['@message'] is
    the empty string, the working set has no [msg] key, and every key of
    the mapping that is not one of the removed names is a key of the
    output's ['@fields'], with the mapping's value (for a key
    [exception], when the record has no exception info). *)
Theorem mapping_message self record now logr m :
  getattr record "msg" = Ok (PyDict m) ->
  format_logr self record now = Ok logr ->
  logr !! "@message" = Some (PyStr "") /\
  exists fields out,
    working_fields record = Ok fields /\
    fields !! "msg" = None /\
    fields_of logr = Some out /\
    forall k v, m !! k = Some v -> k ∉ removed_names ->
      is_Some (out !! k) /\
      ((k = "exception" ->
        py_truthy (default PyNone (supplied_fields record !! "exc_info")) = false) ->
       out !! k = Some v).
Proof.
  intros Hm Hrun. split.
  - destruct (format_logr_message _ _ _ _ Hrun)
      as (fields0 & msg0 & msg & Hres & Hint & Hmsg).
    destruct (resolve_message_msg_dict _ _ _ _ Hm Hres) as [-> _].
    unfold interpolate in Hint. rewrite str_format_empty in Hint.
    by simplify_eq.
  - destruct (format_logr_fields _ _ _ _ Hrun) as (fields & Hwf & Hout).
    exists fields, (fields ∪ nested_defaults self). split_and!; [done| |done|].
    { apply (working_fields_removed _ _ _ Hwf).
      apply (bool_decide_unpack _). by vm_compute. }
    intros k v Hk Hrem.
    assert (supplied_fields record !! k = Some v) as Hsup.
    { rewrite (supplied_fields_dict _ _ Hm). by apply lookup_union_Some_l. }
    split.
    + destruct (decide (k = "exception")) as [->|Hne];
        [destruct (py_truthy (default PyNone (supplied_fields record !! "exc_info")))
           eqn:Ht|].
      * destruct (working_fields_inv _ _ Hwf) as (f0 & m0 & ll & wg & Hres & Hex).
        rewrite <- (resolve_message_supplied _ _ _ "exc_info" Hres) in Ht by done.
        destruct (extract_fields_exception _ _ _ _ Hex Ht) as (lines & _ & _ & Hl).
        exists (PyList (PyStr <$> lines)). by apply lookup_union_Some_l.
      * exists v. apply lookup_union_Some_l.
        by rewrite (working_fields_supplied _ _ _ Hwf Hrem).
      * exists v. apply lookup_union_Some_l.
        by rewrite (working_fields_supplied _ _ _ Hwf Hrem).
    + intros Hexc. apply lookup_union_Some_l.
      by rewrite (working_fields_supplied _ _ _ Hwf Hrem Hexc).
Qed.


(** C7, as amended: under each denylisted name, the output's ['@fields']
    holds what the configured defaults hold under that name in their own
    ['@fields'] mapping, and nothing when they hold nothing there: no
    attribute of the record and no key of a mapping message is there
    under such a name. *)
Theorem denylisted_fields self record now logr :
  format_logr self record now = Ok logr ->
  exists out,
    fields_of logr = Some out /\
    forall tag, tag ∈ unwanted_tags ->
                out !! tag = nested_defaults self !! tag.
Proof.
  intros (fields & Hwf & Hout)%format_logr_fields.
  exists (fields ∪ nested_defaults self). split; [done|].
  intros tag Htag. apply lookup_union_r.
  apply (working_fields_removed _ _ _ Hwf). unfold removed_names.
  by do 2 right.
Qed.

(** C10: each reserved key of the output holds the value that [format]
    computes from the record, the clock and the host names of the
    formatter, whatever the configured defaults hold under that key;
    [logging_type] is ["redis"]. *)
Theorem reserved_values self record now logr :
  format_logr self record now = Ok logr ->
  exists msg loglevel worker_guid fields,
    prepare record = Ok (msg, loglevel, worker_guid, fields) /\
    logr !! "@message" = Some (PyStr msg) /\
    logr !! "@timestamp" = Some (PyStr now) /\
    logr !! "@source_host" = Some (source_host self) /\
    logr !! "@host" = Some (host self) /\
    logr !! "loglevel" = Some loglevel /\
    logr !! "worker_guid" = Some worker_guid /\
    logr !! "logging_type" = Some (PyStr "redis") /\
    logr !! "@fields" = Some (PyDict (fields ∪ nested_defaults self)).
Proof.
  intros (msg & ll & wg & fields & d & Hprep & Hok & ->)%format_logr_inv.
  exists msg, ll, wg, fields. split; [done|].
  split_and!; by apply lookup_union_Some_l.
Qed.

(** *** When [format] returns *)

Lemma resolve_message_returns record :
  returns (resolve_message record) <->
  exists raw, getattr record "msg" = Ok raw /\
    match raw with
    | PyDict _ => True
    | _ => returns (getMessage record)
    end.
Proof.
  destruct (getattr record "msg") as [raw|e] eqn:Hraw.
  - assert ((exists m, raw = PyDict m) \/
            resolve_message record =
            (text ← getMessage record; Ok (__dict__ record, text))) as [[m ->]|Hres].
    { unfold resolve_message. rewrite Hraw. destruct raw; eauto. }
    + rewrite (resolve_message_dict _ _ Hraw). split; [|by eexists].
      intros _. by exists (PyDict m).
    + rewrite Hres. split.
      * intros [p Hp]. exists raw. split; [done|].
        destruct (getMessage record); [|done]. destruct raw; by eexists.
      * intros (raw' & [= <-] & Hok).
        assert (returns (getMessage record)) as [text ->].
        { destruct raw; try done. revert Hres.
          rewrite (resolve_message_dict _ _ Hraw).
          destruct (getMessage record); [by eexists | done]. }
        by eexists.
  - unfold resolve_message. rewrite Hraw.
    split; [by intros [? ?] | by intros (? & ? & _)].
Qed.

Lemma prepare_returns record :
  returns (prepare record) <->
  exists fields0 msg0,
    resolve_message record = Ok (fields0, msg0) /\
    returns (interpolate msg0 fields0) /\
    returns (add_exception fields0).
Proof.
  unfold prepare, extract_fields.
  destruct (resolve_message record) as [[fields0 msg0]|e]; simpl;
    [|split; [by intros [? ?] | by intros (? & ? & ? & _)]].
  split.
  - intros [p Hp]. exists fields0, msg0. split; [done|].
    destruct (interpolate msg0 fields0); [|done]. split; [by eexists|].
    simpl in Hp. destruct (add_exception fields0); [by eexists|done].
  - intros (f & m & [= <- <-] & [msg ->] & [fields1 ->]). simpl. by eexists.
Qed.

Lemma interpolate_returns msg fields :
  returns (interpolate msg fields) <->
  forall e, str_format msg fields = Raise e -> e = KeyError \/ e = IndexError.
Proof.
  unfold interpolate. destruct (str_format msg fields) as [text|e].
  - split; [done|]. intros _. by eexists.
  - split.
    + intros [text Htext] e' [= <-]. destruct e; simplify_eq; auto.
    + intros He. destruct (He e eq_refl) as [-> | ->]; by eexists.
Qed.

Lemma add_exception_returns fields :
  returns (add_exception fields) <->
  (py_truthy (default PyNone (fields !! "exc_info")) = true ->
   returns (format_exception (default PyNone (fields !! "exc_info")))).
Proof.
  unfold add_exception. destruct (py_truthy _) eqn:Ht.
  - destruct (fields !! "exc_info") as [exc_info|] eqn:Hexc; [|done]. simpl.
    rewrite Hexc. simpl. destruct (format_exception exc_info) as [lines|e].
    + split; intros _; [intros _|]; by eexists.
    + split; [by intros [? ?]|]. intros Hret. by destruct (Hret eq_refl).
  - split; [done|]. intros _. by eexists.
Qed.

(** [format] gives its document exactly when the steps up to the merge
    succeed and the configured defaults are a mapping whose ['@fields'],
    if any, is a mapping. *)
Lemma format_logr_returns self record now :
  returns (format_logr self record now) <->
  returns (prepare record) /\ exists d, defaults_ok self d.
Proof.
  split.
  - intros [logr Hrun].
    destruct (format_logr_inv _ _ _ _ Hrun)
      as (msg & ll & wg & fields & d & Hprep & Hok & _).
    split; [by eexists | by exists d].
  - intros [[[[[msg ll] wg] fields] Hprep] [d Hok]].
    eexists. by eapply format_logr_ok.
Qed.

(** *** Construction *)

(** C9, as amended: construction raises exactly when a payload is given
    and either [json.loads] raises on it, or it decodes to a value that
    is not an object and on which the tests for [extra] and
    [source_host] raise; with no payload, or a payload that decodes to
    an object, construction returns the formatter whose defaults are the
    [extra] entry, the empty mapping when there is none, and whose source
    host is the [source_host] entry, the resolved host name when there
    is none, the empty string when the resolution fails. *)
Theorem construction fmt cls coerce :
  (raises (__init__ fmt cls coerce) <->
   exists text, fmt = Some text /\
     (raises (json_loads text) \/
      exists v, json_loads text = Ok v /\ rejected_config v = true)) /\
  (forall cfg,
      (fmt = None /\ cfg = ∅) \/
      (exists text, fmt = Some text /\ json_loads text = Ok (PyDict cfg)) ->
      __init__ fmt cls coerce =
      Ok {| _fmt := PyDict cfg; json_default := coerce; json_cls := cls;
            defaults := default (PyDict ∅) (cfg !! "extra");
            source_host :=
              default (or_else (PyStr <$> gethostname) (PyStr ""))
                      (cfg !! "source_host");
            host := or_else (PyStr <$> (name ← gethostname; gethostbyname name))
                            (PyStr "") |}).
Proof.
  assert (forall cfg, (_fmt ← Ok (PyDict cfg);
     has_extra ← py_contains "extra" _fmt;
     defaults ← (if negb has_extra then Ok (PyDict ∅)
                 else py_getitem _fmt "extra");
     has_source_host ← py_contains "source_host" _fmt;
     source_host ← (if (has_source_host : bool)
                    then py_getitem _fmt "source_host"
                    else Ok (or_else (PyStr <$> gethostname) (PyStr "")));
     let host := or_else (PyStr <$> (name ← gethostname; gethostbyname name))
                         (PyStr "") in
     Ok {| _fmt := _fmt; json_default := coerce; json_cls := cls;
           defaults := defaults; source_host := source_host; host := host |}) =
     Ok {| _fmt := PyDict cfg; json_default := coerce; json_cls := cls;
            defaults := default (PyDict ∅) (cfg !! "extra");
            source_host :=
              default (or_else (PyStr <$> gethostname) (PyStr ""))
                      (cfg !! "source_host");
            host := or_else (PyStr <$> (name ← gethostname; gethostbyname name))
                            (PyStr "") |}) as Hdict.
  { intros cfg. simpl.
    destruct (cfg !! "extra") as [x|] eqn:Hx; simpl;
      destruct (cfg !! "source_host") as [y|] eqn:Hy; simpl;
      rewrite ?bool_decide_true, ?bool_decide_false by (by rewrite ?is_Some_alt);
      simpl; rewrite ?Hx, ?Hy; simpl;
      rewrite ?bool_decide_true, ?bool_decide_false by (by rewrite ?is_Some_alt);
      simpl; rewrite ?Hx, ?Hy; done. }
  split.
  - unfold __init__. destruct fmt as [text|].
    + destruct (json_loads text) as [v|e] eqn:Hload; simpl.
      * split.
        -- intros [e He]. exists text. split; [done|]. right. exists v.
           split; [done|].
           destruct v; try done; simpl in *.
           ++ destruct (is_substring "extra" s); [done|]. simpl in He.
              by destruct (is_substring "source_host" s).
           ++ destruct (existsb (is_str "extra") l); [done|]. simpl in He.
              by destruct (existsb (is_str "source_host") l).
           ++ destruct (existsb (is_str "extra") l); [done|]. simpl in He.
              by destruct (existsb (is_str "source_host") l).
           ++ specialize (Hdict d). simpl in Hdict. by rewrite Hdict in He.
        -- intros (text' & [= <-] & [[e He] | (v' & Hv' & Hrej)]); [congruence|].
           assert (v' = v) as -> by congruence.
           destruct v; simpl in *; try done; try by eexists.
           ++ destruct (is_substring "extra" s); simpl; [by eexists|].
              simpl in Hrej. rewrite Hrej. simpl. by eexists.
           ++ destruct (existsb (is_str "extra") l); simpl; [by eexists|].
              simpl in Hrej. rewrite Hrej. simpl. by eexists.
           ++ destruct (existsb (is_str "extra") l); simpl; [by eexists|].
              simpl in Hrej. rewrite Hrej. simpl. by eexists.
      * split; [|by eexists]. intros _. exists text. split; [done|].
        left. by exists e.
    + split.
      * intros [e He]. specialize (Hdict ∅). simpl in *. congruence.
      * by intros (text & ? & _).
  - intros cfg [[-> ->] | (text & -> & Hload)]; unfold __init__.
    + apply (Hdict ∅).
    + rewrite Hload. apply Hdict.
Qed.
End Document2.

(** * Further properties of the formatter *)

Section Further.
Context `{lib : PyLib}.
Implicit Types (self : LogstashFormatter) (record : LogRecord).
Implicit Types (fields d nested logr m out : pydict) (now : string).

(** X1: [_build_fields], on defaults whose [get('@fields', {})] is the
    mapping [nested], returns the dictionary that holds under each key
    the value of [fields], and the value of [nested] where [fields] has
    none; it has no other key. *)
Theorem build_fields_merge d fields nested :
  default (PyDict ∅) (d !! "@fields") = PyDict nested ->
  exists out,
    _build_fields (PyDict d) fields = Ok out /\
    dom out = dom fields ∪ dom nested /\
    forall k, out !! k = match fields !! k with
                         | Some v => Some v
                         | None => nested !! k
                         end.
Proof.
  intros Hnested. exists (fields ∪ nested). split_and!.
  - unfold _build_fields. simpl. rewrite Hnested. simpl.
    by rewrite py_dict_items.
  - apply dom_union_L.
  - intros k. rewrite lookup_union. by destruct (fields !! k), (nested !! k).
Qed.

Lemma build_fields_error (defaults : pyval) fields e :
  _build_fields defaults fields = Raise e -> e = AttributeError.
Proof.
  unfold _build_fields.
  destruct defaults as [| | | | | | |d| |]; simpl; try by intros [= <-].
  destruct (default (PyDict ∅) (d !! "@fields")); simpl; by intros [= <-].
Qed.

Lemma build_fields_get (defaults : pyval) fields out :
  _build_fields defaults fields = Ok out ->
  exists d nested,
    defaults = PyDict d /\
    default (PyDict ∅) (d !! "@fields") = PyDict nested.
Proof.
  unfold _build_fields.
  destruct defaults as [| | | | | | |d| |]; try discriminate. simpl.
  destruct (default (PyDict ∅) (d !! "@fields")) as [| | | | | | |n| |] eqn:Hn;
    try discriminate.
  intros _. by exists d, n.
Qed.

(** X2: [_build_fields] returns exactly when its first argument is a
    mapping whose ['@fields'] entry, if any, is a mapping; otherwise it
    raises [AttributeError], and it raises nothing else. *)
Theorem build_fields_raises (defaults : pyval) fields :
  (returns (_build_fields defaults fields) <->
   exists d nested,
     defaults = PyDict d /\
     default (PyDict ∅) (d !! "@fields") = PyDict nested) /\
  (forall e, _build_fields defaults fields = Raise e -> e = AttributeError).
Proof.
  split; [split|].
  - intros [out Hout]. by eapply build_fields_get.
  - intros (d & nested & -> & Hn). exists (py_dict (map_to_list nested ++ map_to_list fields)).
    unfold _build_fields. simpl. by rewrite Hn.
  - intros e. apply build_fields_error.
Qed.

Lemma defaults_ok_get self d :
  defaults_ok self d <->
  defaults self = PyDict d /\
  exists nested, default (PyDict ∅) (d !! "@fields") = PyDict nested.
Proof.
  unfold defaults_ok. split; intros [Hd Hn]; (split; [done|]).
  - destruct Hn as [-> | [nested ->]]; by eexists.
  - destruct Hn as [nested Hn]. destruct (d !! "@fields") as [v|]; [|by left].
    right. exists nested. simpl in Hn. by rewrite Hn.
Qed.

Lemma assemble_raises self now (msg : string) loglevel worker_guid fields :
  (forall d, ~ defaults_ok self d) ->
  assemble self now msg loglevel worker_guid fields = Raise AttributeError.
Proof.
  intros Hbad. unfold assemble.
  destruct (defaults self) as [| | | | |l| |d| |] eqn:Hd; try done.
  simpl. destruct (_build_fields (PyDict d) fields) as [out|e] eqn:Hb.
  - destruct (build_fields_get _ _ _ Hb) as (d' & n & [= <-] & Hn).
    destruct (Hbad d). apply defaults_ok_get. eauto.
  - simpl. by rewrite (build_fields_error _ _ _ Hb).
Qed.

Lemma init_object text cfg cls coerce :
  json_loads text = Ok (PyDict cfg) ->
  __init__ (Some text) cls coerce =
  Ok {| _fmt := PyDict cfg; json_default := coerce; json_cls := cls;
        defaults := default (PyDict ∅) (cfg !! "extra");
        source_host :=
          default (or_else (PyStr <$> gethostname) (PyStr ""))
                  (cfg !! "source_host");
        host := or_else (PyStr <$> (name ← gethostname; gethostbyname name))
                        (PyStr "") |}.
Proof.
  intros Hload. unfold __init__. rewrite Hload. simpl.
  destruct (cfg !! "extra") as [x|] eqn:Hx; simpl;
    destruct (cfg !! "source_host") as [y|] eqn:Hy; simpl;
    rewrite ?bool_decide_true, ?bool_decide_false by (by rewrite ?is_Some_alt);
    simpl; rewrite ?Hx, ?Hy; simpl;
    rewrite ?bool_decide_true, ?bool_decide_false by (by rewrite ?is_Some_alt);
    simpl; rewrite ?Hx, ?Hy; done.
Qed.

(** X3: a configuration object whose [extra] entry is not a mapping, or
    is a mapping with an ['@fields'] entry that is not a mapping, is
    accepted by the constructor; on the formatter it gives, [format]
    raises [AttributeError] for every record that gets to the merge. *)
Theorem bad_extra_accepted text cfg v cls coerce :
  json_loads text = Ok (PyDict cfg) ->
  cfg !! "extra" = Some v ->
  (forall d, v = PyDict d ->
             exists x, d !! "@fields" = Some x /\ forall n, x <> PyDict n) ->
  exists self,
    __init__ (Some text) cls coerce = Ok self /\
    defaults self = v /\
    forall record now,
      returns (prepare record) ->
      format_logr self record now = Raise AttributeError /\
      format self record now = Raise AttributeError.
Proof.
  intros Hload Hv Hbad. eexists. split; [by apply init_object|].
  simpl. rewrite Hv. simpl. split; [done|].
  intros record now [[[[msg ll] wg] fields] Hprep].
  assert (format_logr
            {| _fmt := PyDict cfg; json_default := coerce; json_cls := cls;
               defaults := v;
               source_host :=
                 default (or_else (PyStr <$> gethostname) (PyStr ""))
                         (cfg !! "source_host");
               host := or_else (PyStr <$> (name ← gethostname; gethostbyname name))
                               (PyStr "") |} record now
          = Raise AttributeError) as Hraise.
  { unfold format_logr. rewrite Hprep. simpl. apply assemble_raises.
    intros d [Hd Hn]. simpl in Hd. destruct (Hbad d Hd) as (x & Hx & Hnot).
    destruct Hn as [Hn | [n Hn]]; [congruence|].
    rewrite Hx in Hn. injection Hn as ->. by apply (Hnot n). }
  split; [done|]. unfold format. by rewrite Hraise.
Qed.


(** X5: [loglevel] is the [levelname] and [worker_guid] the [name] that
    the record supplies (a mapping message with such a key replaces the
    attribute), and the empty string when the record has none. *)
Theorem level_and_logger_name self record now logr :
  format_logr self record now = Ok logr ->
  logr !! "loglevel"
  = Some (default (PyStr "") (supplied_fields record !! "levelname")) /\
  logr !! "worker_guid"
  = Some (default (PyStr "") (supplied_fields record !! "name")).
Proof.
  intros (msg & ll & wg & fields & d & Hprep & Hok & ->)%format_logr_inv.
  destruct (prepare_inv _ _ _ _ _ Hprep) as (f0 & m0 & Hres & _ & Hex).
  destruct (extract_fields_inv _ _ _ _ Hex) as (f1 & Hadd & -> & -> & _).
  rewrite lookup_delete_ne by done.
  rewrite !(add_exception_lookup _ _ _ Hadd) by done.
  rewrite !(resolve_message_supplied _ _ _ _ Hres) by done.
  split; by apply lookup_union_Some_l.
Qed.

Lemma output_items_timestamp self now now' (msg : string) loglevel worker_guid
    built :
  <["@timestamp" := PyStr now']>
    (output_items self now msg loglevel worker_guid built)
  = output_items self now' msg loglevel worker_guid built.
Proof.
  unfold output_items. rewrite (insert_insert_ne _ "@timestamp" "@message") by done.
  by rewrite insert_insert_eq.
Qed.

(** X6: the clock reaches the output through ['@timestamp'] only: at
    another instant, [format] gives the same dictionary with that entry
    replaced. *)
Theorem timestamp_only self record now now' logr :
  format_logr self record now = Ok logr ->
  format_logr self record now' = Ok (<["@timestamp" := PyStr now']> logr).
Proof.
  intros (msg & ll & wg & fields & d & Hprep & Hok & ->)%format_logr_inv.
  rewrite (format_logr_ok _ _ now' _ _ _ _ _ Hprep Hok). f_equal.
  by rewrite insert_union_l, output_items_timestamp.
Qed.

Lemma resolve_message_text record raw text :
  getattr record "msg" = Ok raw -> (forall m, raw <> PyDict m) ->
  getMessage record = text ->
  resolve_message record = (msg ← text; Ok (__dict__ record, msg)).
Proof.
  intros Hraw Hnot <-. unfold resolve_message. rewrite Hraw. simpl.
  destruct raw; try done. by destruct (Hnot d).
Qed.

(** X7: when the message is not a mapping, the text of [getMessage()]
    is interpolated against all the attributes of the record, the
    removed names among them, and ['@message'] is the text that this
    gives. *)
Theorem interpolation_success self record now logr raw text0 text :
  getattr record "msg" = Ok raw -> (forall m, raw <> PyDict m) ->
  getMessage record = Ok text0 ->
  str_format text0 (__dict__ record) = Ok text ->
  format_logr self record now = Ok logr ->
  logr !! "@message" = Some (PyStr text).
Proof.
  intros Hraw Hnot Hget Hfmt
    (f0 & m0 & msg & Hres & Hint & Hmsg)%format_logr_message.
  rewrite (resolve_message_text _ _ _ Hraw Hnot Hget) in Hres.
  simpl in Hres. injection Hres as <- <-.
  unfold interpolate in Hint. rewrite Hfmt in Hint. by simplify_eq.
Qed.

(** X8: [format] has no guard around [getMessage()]: when the message
    is not a mapping and [getMessage()] raises, [format] raises that
    exception. *)
Theorem get_message_error self record now raw e :
  getattr record "msg" = Ok raw -> (forall m, raw <> PyDict m) ->
  getMessage record = Raise e ->
  format_logr self record now = Raise e /\ format self record now = Raise e.
Proof.
  intros Hraw Hnot Hget.
  assert (format_logr self record now = Raise e) as Hraise.
  { unfold format_logr, prepare.
    by rewrite (resolve_message_text _ _ _ Hraw Hnot Hget). }
  split; [done|]. unfold format. by rewrite Hraise.
Qed.

(** X9: [format] has no guard around [traceback.format_exception]: when
    the working set has exception info that is true and the formatting
    of it raises, [format] raises that exception. *)
Theorem traceback_error self record now fields0 msg0 exc_info e :
  resolve_message record = Ok (fields0, msg0) ->
  returns (interpolate msg0 fields0) ->
  fields0 !! "exc_info" = Some exc_info ->
  py_truthy exc_info = true ->
  format_exception exc_info = Raise e ->
  format_logr self record now = Raise e /\ format self record now = Raise e.
Proof.
  intros Hres [msg Hint] Hexc Ht Hfmt.
  assert (format_logr self record now = Raise e) as Hraise.
  { assert (add_exception fields0 = Raise e) as Hadd.
    { unfold add_exception. simpl. rewrite Hexc. simpl. rewrite Ht.
      simpl. by rewrite Hfmt. }
    unfold format_logr, prepare, extract_fields.
    rewrite Hres. simpl. rewrite Hint. simpl. by rewrite Hadd. }
  split; [done|]. unfold format. by rewrite Hraise.
Qed.


(** *** When [format] returns, and what it raises *)

Lemma extract_fields_returns fields0 :
  returns (extract_fields fields0) <-> returns (add_exception fields0).
Proof.
  unfold extract_fields. destruct (add_exception fields0) as [fields1|e]; simpl.
  - split; intros _; by eexists.
  - split; by intros [? ?].
Qed.

(** X12: [format] gives its document exactly when the message is
    resolved, the interpolation raises nothing but [KeyError] or
    [IndexError], the traceback of an exception info that is true can be
    formatted, and the configured defaults are a mapping whose
    ['@fields'], if any, is a mapping; it then returns exactly when the
    encoder accepts the document. *)
Theorem format_returns self record now :
  (returns (format_logr self record now) <->
   exists fields0 msg0,
     resolve_message record = Ok (fields0, msg0) /\
     (forall e, str_format msg0 fields0 = Raise e ->
                e = KeyError \/ e = IndexError) /\
     (py_truthy (default PyNone (fields0 !! "exc_info")) = true ->
      returns (format_exception (default PyNone (fields0 !! "exc_info")))) /\
     exists d, defaults_ok self d) /\
  (returns (format self record now) <->
   exists logr,
     format_logr self record now = Ok logr /\
     returns (json_dumps (PyDict logr) (json_default self) (json_cls self))).
Proof.
  split.
  - rewrite format_logr_returns, prepare_returns. split.
    + intros [(f0 & m0 & Hres & Hint & Hadd) Hd]. exists f0, m0.
      split_and!; [done| |by apply add_exception_returns|done].
      by apply interpolate_returns.
    + intros (f0 & m0 & Hres & Hint & Hadd & Hd). split; [|done].
      exists f0, m0. split_and!; [done| |by apply add_exception_returns].
      by apply interpolate_returns.
  - unfold format. destruct (format_logr self record now) as [logr|e]; simpl.
    + split; [intros Hret; by exists logr|]. by intros (logr' & [= <-] & Hret).
    + split; [by intros [? ?] | by intros (? & ? & _)].
Qed.

Lemma resolve_message_error record e :
  resolve_message record = Raise e ->
  getattr record "msg" = Raise e \/
  exists raw, getattr record "msg" = Ok raw /\ (forall m, raw <> PyDict m) /\
              getMessage record = Raise e.
Proof.
  destruct (getattr record "msg") as [raw|e'] eqn:Hraw.
  - intros Hres. right. exists raw. split; [done|].
    assert ((exists m, raw = PyDict m) \/ forall m, raw <> PyDict m)
      as [[m ->]|Hnot] by (destruct raw; eauto).
    + by rewrite (resolve_message_dict _ _ Hraw) in Hres.
    + split; [done|].
      rewrite (resolve_message_text _ _ _ Hraw Hnot eq_refl) in Hres.
      by destruct (getMessage record); simplify_eq/=.
  - unfold resolve_message. rewrite Hraw. simpl. intros [= ->]. by left.
Qed.

Lemma assemble_error self now (msg : string) loglevel worker_guid fields e :
  assemble self now msg loglevel worker_guid fields = Raise e ->
  e = AttributeError /\ forall d, ~ defaults_ok self d.
Proof.
  intros Hrun. split.
  - unfold assemble in Hrun.
    destruct (defaults self) as [| | | | |l| |d| |]; simplify_eq/=; try done.
    destruct (_build_fields (PyDict d) fields) eqn:Hb; simplify_eq/=.
    by eapply build_fields_error.
  - intros d Hok. by rewrite (assemble_ok _ _ _ _ _ _ d Hok) in Hrun.
Qed.

(** X13: [format] raises nothing of its own before the encoding but
    [AttributeError], on configured defaults that are not a mapping (or
    whose ['@fields'] is not one): any other exception is the one of the
    lookup of [record.msg], of [getMessage()] on a message that is not
    a mapping, of the interpolation (neither [KeyError] nor
    [IndexError]), or of [traceback.format_exception] on an exception
    info that is true. *)
Theorem format_error_sources self record now e :
  format_logr self record now = Raise e ->
  getattr record "msg" = Raise e \/
  (exists raw, getattr record "msg" = Ok raw /\ (forall m, raw <> PyDict m) /\
               getMessage record = Raise e) \/
  exists fields0 msg0,
    resolve_message record = Ok (fields0, msg0) /\
    ((str_format msg0 fields0 = Raise e /\ e <> KeyError /\ e <> IndexError) \/
     (exists exc_info,
         fields0 !! "exc_info" = Some exc_info /\ py_truthy exc_info = true /\
         format_exception exc_info = Raise e) \/
     (e = AttributeError /\ forall d, ~ defaults_ok self d)).
Proof.
  unfold format_logr, prepare.
  destruct (resolve_message record) as [[fields0 msg0]|e'] eqn:Hres; simpl.
  - intros Hrun. right; right. exists fields0, msg0. split; [done|].
    destruct (interpolate msg0 fields0) as [msg|e'] eqn:Hint; simpl in Hrun.
    + destruct (extract_fields fields0) as [[[ll wg] fields]|e'] eqn:Hex;
        simpl in Hrun.
      * right; right. by eapply assemble_error.
      * injection Hrun as ->. right; left.
        unfold extract_fields, add_exception in Hex.
        destruct (py_truthy (default PyNone (fields0 !! "exc_info"))) eqn:Ht;
          [|done].
        destruct (fields0 !! "exc_info") as [exc_info|] eqn:Hexc; [|done].
        simpl in Hex, Ht. rewrite Hexc in Hex. simpl in Hex.
        exists exc_info. split_and!; [done..|].
        by destruct (format_exception exc_info); simplify_eq/=.
    + injection Hrun as ->. left. unfold interpolate in Hint.
      destruct (str_format msg0 fields0) as [text|e']; [done|].
      by destruct e'; simplify_eq.
  - intros [= ->]. destruct (resolve_message_error _ _ Hres); auto.
Qed.

(** X16: a payload that decodes to a value that is no object and on
    which construction returns (an array without the strings [extra]
    and [source_host], a string without these words) configures
    nothing: the defaults are the empty mapping and the source host is
    the resolved host name. *)
Theorem non_object_payload text v cls coerce self :
  json_loads text = Ok v -> (forall cfg, v <> PyDict cfg) ->
  __init__ (Some text) cls coerce = Ok self ->
  rejected_config v = false /\
  _fmt self = v /\
  defaults self = PyDict ∅ /\
  source_host self = or_else (PyStr <$> gethostname) (PyStr "").
Proof.
  intros Hload Hnot. unfold __init__. rewrite Hload. simpl.
  destruct v as [| | | |s|l|l|d| |]; simpl; try done.
  - destruct (is_substring "extra" s); [done|]. simpl.
    destruct (is_substring "source_host" s); [done|]. simpl.
    by intros [= <-].
  - destruct (existsb (is_str "extra") l); [done|]. simpl.
    destruct (existsb (is_str "source_host") l); [done|]. simpl.
    by intros [= <-].
  - destruct (existsb (is_str "extra") l); [done|]. simpl.
    destruct (existsb (is_str "source_host") l); [done|]. simpl.
    by intros [= <-].
  - by destruct (Hnot d).
Qed.
End Further.

(** ** The claims at the sample inputs *)

Ltac vm_refl :=
  lazymatch goal with
  | |- ?lhs = ?rhs => exact (@eq_refl _ rhs <: lhs = rhs)
  end.

Ltac vm_decide := apply (bool_decide_unpack _); vm_compute; exact I.

Lemma sample_a :
  format_logr (H := ref_lib) (formatter_with extra_a) record_a now0 = Ok logr_a.
Proof. vm_refl. Qed.

Lemma prepare_a :
  prepare (H := ref_lib) record_a
  = Ok ("hello world", PyStr "INFO", PyStr "app", fields_a).
Proof. vm_refl. Qed.

Lemma working_fields_a : working_fields (H := ref_lib) record_a = Ok fields_a.
Proof. vm_refl. Qed.

Lemma defaults_ok_a : defaults_ok (formatter_with extra_a) extra_a.
Proof. split; [reflexivity|]. right. exists nested_a. vm_refl. Qed.

Lemma format_top_level_keys_witness :
  prepare (H := ref_lib) record_a
  = Ok ("hello world", PyStr "INFO", PyStr "app", fields_a) /\
  defaults_ok (formatter_with extra_a) extra_a /\
  exists logr,
    format_logr (H := ref_lib) (formatter_with extra_a) record_a now0 = Ok logr /\
    dom logr = reserved_keys ∪ dom extra_a /\
    format (H := ref_lib) (formatter_with extra_a) record_a now0 =
      json_dumps (H := ref_lib) (PyDict logr)
        (json_default (formatter_with extra_a))
        (json_cls (formatter_with extra_a)).
Proof.
  split; [exact prepare_a|]. split; [exact defaults_ok_a|].
  exact (format_top_level_keys (lib := ref_lib) _ _ now0 _ _ _ _ _
           prepare_a defaults_ok_a).
Defined.

(** C1, as stated, fails: a key of the configured defaults is a top-level
    key of the output. *)
Lemma extra_key_at_top_level :
  formatter_of "{'extra': {'env': 'prod'}}"
  = Ok (formatter_with {["env" := PyStr "prod"]}) /\
  output_key (format_logr (H := ref_lib)
                (formatter_with {["env" := PyStr "prod"]}) record_a now0) "env"
  = Ok (Some (PyStr "prod")) /\
  "env" ∉ reserved_keys.
Proof. split_and!; [vm_refl..|vm_decide]. Qed.

Lemma configured_defaults_placement_witness :
  format_logr (H := ref_lib) (formatter_with extra_a) record_a now0 = Ok logr_a /\
  defaults (formatter_with extra_a) = PyDict extra_a /\
  working_fields (H := ref_lib) record_a = Ok fields_a /\
  exists out,
    fields_of logr_a = Some out /\
    (forall nested k v,
        extra_a !! "@fields" = Some (PyDict nested) -> nested !! k = Some v ->
        fields_a !! k = None -> out !! k = Some v) /\
    (forall k v, extra_a !! k = Some v -> k ∉ reserved_keys ->
                 logr_a !! k = Some v) /\
    (forall k, fields_a !! k = None ->
               nested_defaults (formatter_with extra_a) !! k = None ->
               out !! k = None).
Proof.
  split; [exact sample_a|]. split; [reflexivity|]. split; [exact working_fields_a|].
  exact (configured_defaults_placement (lib := ref_lib) _ _ _ _ _ _
           sample_a eq_refl working_fields_a).
Defined.

(** C2, as stated, fails: the record supplies no [env], the configured
    defaults map [env] to ["prod"], and the output's ['@fields'] has no
    [env]. *)
Lemma top_level_default_not_in_fields :
  defaults (formatter_with {["env" := PyStr "prod"]})
  = PyDict {["env" := PyStr "prod"]} /\
  supplied_fields record_a !! "env" = None /\
  output_field (format_logr (H := ref_lib)
                  (formatter_with {["env" := PyStr "prod"]}) record_a now0) "env"
  = Ok None.
Proof. split_and!; [reflexivity | vm_refl..]. Qed.



(** The record has no exception info: its [exception] and its [user] are
    in ['@fields'], not those of the nested defaults. *)
Example record_over_defaults :
  nested_defaults (formatter_with extra_h) !! "exception" = Some (PyStr "dflt") /\
  py_truthy (default PyNone (supplied_fields record_i !! "exc_info")) = false /\
  output_field (format_logr (H := ref_lib) (formatter_with extra_h) record_i now0)
               "exception" = Ok (Some (PyStr "mine")) /\
  output_field (format_logr (H := ref_lib) (formatter_with extra_h) record_i now0)
               "user" = Ok (Some (PyStr "world")).
Proof. split_and!; vm_refl. Qed.


(** The nested defaults say [user := "nobody"], the record [user :=
    "world"]. *)
Example record_over_nested_default :
  nested_defaults (formatter_with extra_a) !! "user" = Some (PyStr "nobody") /\
  output_field (format_logr (H := ref_lib) (formatter_with extra_a) record_a now0)
               "user" = Ok (Some (PyStr "world")).
Proof. split; vm_refl. Qed.

Lemma resolve_d :
  resolve_message record_d = Ok (__dict__ record_d, "hi {nobody}").
Proof. vm_refl. Qed.

Lemma str_format_d :
  str_format (PyLib := ref_lib) "hi {nobody}" (__dict__ record_d) = Raise KeyError.
Proof. vm_refl. Qed.

Lemma interpolation_failure_witness :
  resolve_message record_d = Ok (__dict__ record_d, "hi {nobody}") /\
  str_format (PyLib := ref_lib) "hi {nobody}" (__dict__ record_d) = Raise KeyError /\
  (KeyError = KeyError \/ KeyError = IndexError) /\
  interpolate (H := ref_lib) "hi {nobody}" (__dict__ record_d) = Ok "hi {nobody}" /\
  format_logr (H := ref_lib) (formatter_with ∅) record_d now0 =
    ('(loglevel, worker_guid, fields) ←
       extract_fields (H := ref_lib) (__dict__ record_d);
     assemble (formatter_with ∅) now0 "hi {nobody}" loglevel worker_guid fields) /\
  (forall logr,
      format_logr (H := ref_lib) (formatter_with ∅) record_d now0 = Ok logr ->
      logr !! "@message" = Some (PyStr "hi {nobody}")).
Proof.
  split; [exact resolve_d|]. split; [exact str_format_d|].
  split; [by left|].
  exact (interpolation_failure (lib := ref_lib) (formatter_with ∅) record_d now0
           _ _ KeyError resolve_d str_format_d (or_introl eq_refl)).
Defined.

Example message_kept :
  output_key (format_logr (H := ref_lib) (formatter_with ∅) record_d now0)
             "@message" = Ok (Some (PyStr "hi {nobody}")).
Proof. vm_refl. Qed.

(** C4, as stated, fails: the interpolation of a message with a brace that
    opens no field fails, and [format] raises. *)
Lemma malformed_template_raises :
  getMessage record_e = Ok "payload = {" /\
  str_format (PyLib := ref_lib) "payload = {" (__dict__ record_e)
  = Raise ValueError /\
  format (H := ref_lib) (formatter_with ∅) record_e now0 = Raise ValueError.
Proof. split_and!; vm_refl. Qed.

Lemma sample_c :
  format_logr (H := ref_lib) (formatter_with ∅) record_c now0 = Ok logr_c.
Proof. vm_refl. Qed.

Lemma getattr_c : getattr record_c "msg" = Ok (PyDict message_c).
Proof. vm_refl. Qed.

Lemma mapping_message_witness :
  getattr record_c "msg" = Ok (PyDict message_c) /\
  format_logr (H := ref_lib) (formatter_with ∅) record_c now0 = Ok logr_c /\
  logr_c !! "@message" = Some (PyStr "") /\
  exists fields out,
    working_fields (H := ref_lib) record_c = Ok fields /\
    fields !! "msg" = None /\
    fields_of logr_c = Some out /\
    forall k v, message_c !! k = Some v -> k ∉ removed_names ->
      is_Some (out !! k) /\
      ((k = "exception" ->
        py_truthy (default PyNone (supplied_fields record_c !! "exc_info")) = false) ->
       out !! k = Some v).
Proof.
  split; [exact getattr_c|]. split; [exact sample_c|].
  exact (mapping_message (lib := ref_lib) _ _ _ _ _ getattr_c sample_c).
Defined.

(** C5, as stated, fails: [lineno] is a key of the mapping and no key of
    the output's ['@fields']. *)
Lemma mapping_key_removed :
  getattr record_c "msg" = Ok (PyDict message_c) /\
  message_c !! "lineno" = Some (PyInt 7) /\
  output_field (format_logr (H := ref_lib) (formatter_with ∅) record_c now0)
               "lineno" = Ok None.
Proof. split_and!; vm_refl. Qed.



Example traceback_lines :
  output_field (format_logr (H := ref_lib) (formatter_with ∅) record_b now0)
               "exception" = Ok (Some (PyList (PyStr <$> traceback_b))).
Proof. vm_refl. Qed.

Example no_exception_field :
  output_field (format_logr (H := ref_lib) (formatter_with ∅) record_a now0)
               "exception" = Ok None.
Proof. vm_refl. Qed.

Lemma denylisted_fields_witness :
  format_logr (H := ref_lib) (formatter_with extra_a) record_a now0 = Ok logr_a /\
  exists out,
    fields_of logr_a = Some out /\
    forall tag, tag ∈ unwanted_tags ->
                out !! tag = nested_defaults (formatter_with extra_a) !! tag.
Proof.
  split; [exact sample_a|].
  exact (denylisted_fields (lib := ref_lib) _ _ _ _ sample_a).
Defined.

(** C7, as stated, fails: [lineno] is denylisted and is a key of the
    output's ['@fields'], from the nested defaults. *)
Lemma denylisted_name_from_defaults :
  "lineno" ∈ unwanted_tags /\
  formatter_of "{'extra': {'@fields': {'lineno': 1}}}"
  = Ok (formatter_with {["@fields" := PyDict {["lineno" := PyInt 1]}]}) /\
  output_field
    (format_logr (H := ref_lib)
       (formatter_with {["@fields" := PyDict {["lineno" := PyInt 1]}]})
       record_a now0) "lineno"
  = Ok (Some (PyInt 1)).
Proof. split_and!; [vm_decide | vm_refl..]. Qed.

Lemma reserved_values_witness :
  format_logr (H := ref_lib) (formatter_with extra_a) record_a now0 = Ok logr_a /\
  exists msg loglevel worker_guid fields,
    prepare (H := ref_lib) record_a = Ok (msg, loglevel, worker_guid, fields) /\
    logr_a !! "@message" = Some (PyStr msg) /\
    logr_a !! "@timestamp" = Some (PyStr now0) /\
    logr_a !! "@source_host" = Some (source_host (formatter_with extra_a)) /\
    logr_a !! "@host" = Some (host (formatter_with extra_a)) /\
    logr_a !! "loglevel" = Some loglevel /\
    logr_a !! "worker_guid" = Some worker_guid /\
    logr_a !! "logging_type" = Some (PyStr "redis") /\
    logr_a !! "@fields"
    = Some (PyDict (fields ∪ nested_defaults (formatter_with extra_a))).
Proof.
  split; [exact sample_a|].
  exact (reserved_values (lib := ref_lib) _ _ _ _ sample_a).
Defined.

(** The defaults say [logging_type := "file"]. *)
Example logging_type_is_redis :
  extra_a !! "logging_type" = Some (PyStr "file") /\
  output_key (format_logr (H := ref_lib) (formatter_with extra_a) record_a now0)
             "logging_type" = Ok (Some (PyStr "redis")).
Proof. split; vm_refl. Qed.

(** C9, as stated, fails: the payload [3] is valid JSON, and construction
    raises. *)
Lemma valid_json_rejected :
  json_loads (PyLib := ref_lib) "3" = Ok (PyInt 3) /\
  __init__ (H := ref_lib) (Some "3") None (_default_json_default (H := ref_lib))
  = Raise TypeError.
Proof. split; vm_refl. Qed.

Example invalid_json_rejected :
  formatter_of "{'extra': " = Raise JSONDecodeError.
Proof. vm_refl. Qed.

Example string_payload_rejected :
  formatter_of "'my extras'" = Raise TypeError.
Proof. vm_refl. Qed.

Example array_payload_accepted :
  defaults <$> formatter_of "[1, 2]" = Ok (PyDict ∅).
Proof. vm_refl. Qed.

Example no_payload :
  __init__ (H := ref_lib) None None (_default_json_default (H := ref_lib))
  = Ok {| _fmt := PyDict ∅;
          json_default := _default_json_default (H := ref_lib);
          json_cls := None; defaults := PyDict ∅;
          source_host := PyStr "localhost"; host := PyStr "127.0.0.1" |}.
Proof. vm_refl. Qed.

Example source_host_override :
  source_host <$> formatter_of "{'source_host': 'edge-7'}" = Ok (PyStr "edge-7").
Proof. vm_refl. Qed.

(** The examples of the specification. *)
Example hello_world :
  output_key
    (format_logr (H := ref_lib) (formatter_with ∅)
       {| __dict__ := {["msg" := PyStr "hello {name}"; "name" := PyStr "world"]};
          getMessage := Ok "hello {name}" |} now0) "@message"
  = Ok (Some (PyStr "hello world")).
Proof. vm_refl. Qed.

Example structured_message :
  output_key
    (format_logr (H := ref_lib) (formatter_with ∅)
       (log_record (PyDict {["a" := PyInt 1]}) PyNone ∅) now0) "@message"
  = Ok (Some (PyStr "")) /\
  output_field
    (format_logr (H := ref_lib) (formatter_with ∅)
       (log_record (PyDict {["a" := PyInt 1]}) PyNone ∅) now0) "a"
  = Ok (Some (PyInt 1)).
Proof. split; vm_refl. Qed.

Example record_over_default :
  output_field
    (format_logr (H := ref_lib)
       (formatter_with {["@fields" := PyDict {["env" := PyStr "prod"]}]})
       (log_record (PyStr "up") PyNone {["env" := PyStr "staging"]}) now0) "env"
  = Ok (Some (PyStr "staging")).
Proof. vm_refl. Qed.

(** The doctests of [_build_fields]. *)
Example build_fields_uses_fields :
  _build_fields (PyDict ∅) {["foo" := PyStr "one"]} = Ok {["foo" := PyStr "one"]}.
Proof. vm_refl. Qed.

Example build_fields_uses_defaults :
  _build_fields (PyDict {["@fields" := PyDict {["bar" := PyStr "two"]}]})
                {["foo" := PyStr "one"]}
  = Ok {["foo" := PyStr "one"; "bar" := PyStr "two"]}.
Proof. vm_refl. Qed.

Example build_fields_precedence :
  _build_fields (PyDict {["@fields" := PyDict {["foo" := PyStr "two"]}]})
                {["foo" := PyStr "one"]}
  = Ok {["foo" := PyStr "one"]}.
Proof. vm_refl. Qed.

(** The text that [format] returns decodes to the dictionary that it
    serialized (a tuple is written as an array). *)
Example format_decodes :
  (text ← format (H := ref_lib) (formatter_with extra_a) record_a now0;
   ref_loads text)
  = Ok (PyDict
         (<["@fields" := PyDict (list_to_map
              [("team", PyStr "core"); ("user", PyStr "world");
               ("lineno", PyInt 1); ("args", PyList []); ("stack_info", PyNone);
               ("created", PyFloat "1793784600.0")])]> logr_a)).
Proof. vm_refl. Qed.
(** ** The further properties at the sample inputs *)

Lemma nested_of_extra_a :
  default (PyDict ∅) (extra_a !! "@fields") = PyDict nested_a.
Proof. vm_refl. Qed.

Lemma build_fields_merge_witness :
  default (PyDict ∅) (extra_a !! "@fields") = PyDict nested_a /\
  exists out,
    _build_fields (PyDict extra_a) fields_a = Ok out /\
    dom out = dom fields_a ∪ dom nested_a /\
    forall k, out !! k = match fields_a !! k with
                         | Some v => Some v
                         | None => nested_a !! k
                         end.
Proof.
  split; [exact nested_of_extra_a|].
  exact (build_fields_merge extra_a fields_a nested_a nested_of_extra_a).
Defined.

Lemma loads_bad_extra :
  json_loads (PyLib := ref_lib) (dq "{'extra': 3}")
  = Ok (PyDict {["extra" := PyInt 3]}).
Proof. vm_refl. Qed.

Lemma bad_extra_entry :
  ({["extra" := PyInt 3]} : pydict) !! "extra" = Some (PyInt 3).
Proof. vm_refl. Qed.

Lemma bad_extra_no_mapping (d : pydict) :
  PyInt 3 = PyDict d ->
  exists x, d !! "@fields" = Some x /\ forall n, x <> PyDict n.
Proof. discriminate. Qed.

Lemma bad_extra_accepted_witness :
  json_loads (PyLib := ref_lib) (dq "{'extra': 3}")
  = Ok (PyDict {["extra" := PyInt 3]}) /\
  ({["extra" := PyInt 3]} : pydict) !! "extra" = Some (PyInt 3) /\
  (forall d : pydict, PyInt 3 = PyDict d ->
     exists x, d !! "@fields" = Some x /\ forall n, x <> PyDict n) /\
  exists self,
    formatter_of "{'extra': 3}" = Ok self /\
    defaults self = PyInt 3 /\
    forall record now,
      returns (prepare (H := ref_lib) record) ->
      format_logr (H := ref_lib) self record now = Raise AttributeError /\
      format (H := ref_lib) self record now = Raise AttributeError.
Proof.
  split; [exact loads_bad_extra|]. split; [exact bad_extra_entry|].
  split; [exact bad_extra_no_mapping|].
  exact (bad_extra_accepted (lib := ref_lib) _ _ _ None
           (_default_json_default (H := ref_lib))
           loads_bad_extra bad_extra_entry bad_extra_no_mapping).
Defined.

Example bad_extra_raises :
  (self ← formatter_of "{'extra': 3}"; format (H := ref_lib) self record_a now0)
  = Raise AttributeError /\
  (self ← formatter_of "{'extra': {'@fields': 'web'}}";
   format (H := ref_lib) self record_a now0)
  = Raise AttributeError.
Proof. split; vm_refl. Qed.


Lemma level_and_logger_name_witness :
  format_logr (H := ref_lib) (formatter_with ∅) record_c now0 = Ok logr_c /\
  logr_c !! "loglevel"
  = Some (default (PyStr "") (supplied_fields record_c !! "levelname")) /\
  logr_c !! "worker_guid"
  = Some (default (PyStr "") (supplied_fields record_c !! "name")).
Proof.
  split; [exact sample_c|].
  exact (level_and_logger_name (lib := ref_lib) _ _ _ _ sample_c).
Defined.

(** The mapping message of [record_c] has a [name] key, the record none
    under [levelname] once the attribute is taken away. *)
Example logger_name_from_mapping :
  output_key (format_logr (H := ref_lib) (formatter_with ∅) record_c now0)
             "worker_guid" = Ok (Some (PyStr "jobs")) /\
  output_key
    (format_logr (H := ref_lib) (formatter_with ∅)
       {| __dict__ := {["msg" := PyStr "up"]}; getMessage := Ok "up" |} now0)
    "loglevel" = Ok (Some (PyStr "")).
Proof. split; vm_refl. Qed.

Lemma timestamp_only_witness :
  format_logr (H := ref_lib) (formatter_with extra_a) record_a now0 = Ok logr_a /\
  format_logr (H := ref_lib) (formatter_with extra_a) record_a now1
  = Ok (<["@timestamp" := PyStr now1]> logr_a).
Proof.
  split; [exact sample_a|].
  exact (timestamp_only (lib := ref_lib) _ _ _ now1 _ sample_a).
Defined.

Lemma getattr_a : getattr record_a "msg" = Ok (PyStr "hello {user}").
Proof. vm_refl. Qed.

Lemma message_a_no_mapping (m : pydict) : PyStr "hello {user}" <> PyDict m.
Proof. discriminate. Qed.

Lemma getMessage_a : getMessage record_a = Ok "hello {user}".
Proof. vm_refl. Qed.

Lemma str_format_a :
  str_format (PyLib := ref_lib) "hello {user}" (__dict__ record_a)
  = Ok "hello world".
Proof. vm_refl. Qed.

Lemma interpolation_success_witness :
  getattr record_a "msg" = Ok (PyStr "hello {user}") /\
  (forall m : pydict, PyStr "hello {user}" <> PyDict m) /\
  getMessage record_a = Ok "hello {user}" /\
  str_format (PyLib := ref_lib) "hello {user}" (__dict__ record_a)
  = Ok "hello world" /\
  format_logr (H := ref_lib) (formatter_with extra_a) record_a now0 = Ok logr_a /\
  logr_a !! "@message" = Some (PyStr "hello world").
Proof.
  split; [exact getattr_a|]. split; [exact message_a_no_mapping|].
  split; [exact getMessage_a|]. split; [exact str_format_a|].
  split; [exact sample_a|].
  exact (interpolation_success (lib := ref_lib) _ _ _ _ _ _ _
           getattr_a message_a_no_mapping getMessage_a str_format_a sample_a).
Defined.

(** A removed name can be interpolated: the keyword arguments are the
    attributes of the record before any is removed. *)
Example removed_name_interpolated :
  output_key
    (format_logr (H := ref_lib) (formatter_with ∅)
       (log_record (PyStr "at line {lineno}") PyNone ∅) now0) "@message"
  = Ok (Some (PyStr "at line 42")) /\
  output_field
    (format_logr (H := ref_lib) (formatter_with ∅)
       (log_record (PyStr "at line {lineno}") PyNone ∅) now0) "lineno"
  = Ok None.
Proof. split; vm_refl. Qed.

Lemma getattr_f : getattr record_f "msg" = Ok (PyStr "%d items").
Proof. vm_refl. Qed.

Lemma message_f_no_mapping (m : pydict) : PyStr "%d items" <> PyDict m.
Proof. discriminate. Qed.

Lemma get_message_error_witness :
  getattr record_f "msg" = Ok (PyStr "%d items") /\
  (forall m : pydict, PyStr "%d items" <> PyDict m) /\
  getMessage record_f = Raise TypeError /\
  format_logr (H := ref_lib) (formatter_with ∅) record_f now0 = Raise TypeError /\
  format (H := ref_lib) (formatter_with ∅) record_f now0 = Raise TypeError.
Proof.
  split; [exact getattr_f|]. split; [exact message_f_no_mapping|].
  split; [reflexivity|].
  exact (get_message_error (lib := ref_lib) (formatter_with ∅) record_f now0 _ _
           getattr_f message_f_no_mapping eq_refl).
Defined.

Lemma resolve_g :
  resolve_message record_g
  = Ok (delete "msg" (message_g ∪ __dict__ record_g), "").
Proof. vm_refl. Qed.

Lemma interpolate_g :
  returns (interpolate (H := ref_lib) ""
             (delete "msg" (message_g ∪ __dict__ record_g))).
Proof. exists "". vm_refl. Qed.

Lemma exc_info_g :
  delete "msg" (message_g ∪ __dict__ record_g) !! "exc_info" = Some (PyInt 3).
Proof. vm_refl. Qed.

Lemma format_exception_g :
  format_exception (PyLib := ref_lib) (PyInt 3) = Raise TypeError.
Proof. vm_refl. Qed.

Lemma traceback_error_witness :
  resolve_message record_g
  = Ok (delete "msg" (message_g ∪ __dict__ record_g), "") /\
  returns (interpolate (H := ref_lib) ""
             (delete "msg" (message_g ∪ __dict__ record_g))) /\
  delete "msg" (message_g ∪ __dict__ record_g) !! "exc_info" = Some (PyInt 3) /\
  py_truthy (PyInt 3) = true /\
  format_exception (PyLib := ref_lib) (PyInt 3) = Raise TypeError /\
  format_logr (H := ref_lib) (formatter_with ∅) record_g now0 = Raise TypeError /\
  format (H := ref_lib) (formatter_with ∅) record_g now0 = Raise TypeError.
Proof.
  split; [exact resolve_g|]. split; [exact interpolate_g|].
  split; [exact exc_info_g|]. split; [reflexivity|].
  split; [exact format_exception_g|].
  exact (traceback_error (lib := ref_lib) (formatter_with ∅) record_g now0 _ _ _ _
           resolve_g interpolate_g exc_info_g eq_refl format_exception_g).
Defined.

Lemma resolve_e :
  resolve_message record_e = Ok (__dict__ record_e, "payload = {").
Proof. vm_refl. Qed.

Lemma str_format_e :
  str_format (PyLib := ref_lib) "payload = {" (__dict__ record_e)
  = Raise ValueError.
Proof. vm_refl. Qed.

Lemma value_error_not_key : ValueError <> KeyError.
Proof. discriminate. Qed.

Lemma value_error_not_index : ValueError <> IndexError.
Proof. discriminate. Qed.

Lemma interpolation_error_propagates_witness :
  resolve_message record_e = Ok (__dict__ record_e, "payload = {") /\
  str_format (PyLib := ref_lib) "payload = {" (__dict__ record_e)
  = Raise ValueError /\
  ValueError <> KeyError /\ ValueError <> IndexError /\
  format_logr (H := ref_lib) (formatter_with ∅) record_e now0 = Raise ValueError /\
  format (H := ref_lib) (formatter_with ∅) record_e now0 = Raise ValueError.
Proof.
  split; [exact resolve_e|]. split; [exact str_format_e|].
  split; [exact value_error_not_key|]. split; [exact value_error_not_index|].
  exact (interpolation_error_propagates (lib := ref_lib) (formatter_with ∅)
           record_e now0 _ _ _ resolve_e str_format_e
           value_error_not_key value_error_not_index).
Defined.




(** A configured [source_host] is kept on such a host. *)
Example offline_source_host :
  source_host <$>
    __init__ (H := offline_lib) (Some (dq "{'source_host': 'edge-7'}")) None
      (_default_json_default (H := offline_lib))
  = Ok (PyStr "edge-7") /\
  host <$>
    __init__ (H := offline_lib) (Some (dq "{'source_host': 'edge-7'}")) None
      (_default_json_default (H := offline_lib))
  = Ok (PyStr "").
Proof. split; vm_refl. Qed.

Lemma sample_e :
  format_logr (H := ref_lib) (formatter_with ∅) record_e now0 = Raise ValueError.
Proof. vm_refl. Qed.

Lemma format_error_sources_witness :
  format_logr (H := ref_lib) (formatter_with ∅) record_e now0 = Raise ValueError /\
  (getattr record_e "msg" = Raise ValueError \/
   (exists raw, getattr record_e "msg" = Ok raw /\ (forall m, raw <> PyDict m) /\
                getMessage record_e = Raise ValueError) \/
   exists fields0 msg0,
     resolve_message record_e = Ok (fields0, msg0) /\
     ((str_format (PyLib := ref_lib) msg0 fields0 = Raise ValueError /\
       ValueError <> KeyError /\ ValueError <> IndexError) \/
      (exists exc_info,
          fields0 !! "exc_info" = Some exc_info /\ py_truthy exc_info = true /\
          format_exception (PyLib := ref_lib) exc_info = Raise ValueError) \/
      (ValueError = AttributeError /\
       forall d, ~ defaults_ok (formatter_with ∅) d))).
Proof.
  split; [exact sample_e|].
  exact (format_error_sources (lib := ref_lib) _ _ _ _ sample_e).
Defined.

Lemma loads_array :
  json_loads (PyLib := ref_lib) (dq "['blue', 2]")
  = Ok (PyList [PyStr "blue"; PyInt 2]).
Proof. vm_refl. Qed.

Lemma array_no_mapping (cfg : pydict) : PyList [PyStr "blue"; PyInt 2] <> PyDict cfg.
Proof. discriminate. Qed.

Lemma init_array :
  formatter_of "['blue', 2]"
  = Ok {| _fmt := PyList [PyStr "blue"; PyInt 2];
          json_default := _default_json_default (H := ref_lib);
          json_cls := None; defaults := PyDict ∅;
          source_host := PyStr "localhost"; host := PyStr "127.0.0.1" |}.
Proof. vm_refl. Qed.

Lemma non_object_payload_witness :
  json_loads (PyLib := ref_lib) (dq "['blue', 2]")
  = Ok (PyList [PyStr "blue"; PyInt 2]) /\
  (forall cfg : pydict, PyList [PyStr "blue"; PyInt 2] <> PyDict cfg) /\
  formatter_of "['blue', 2]"
  = Ok {| _fmt := PyList [PyStr "blue"; PyInt 2];
          json_default := _default_json_default (H := ref_lib);
          json_cls := None; defaults := PyDict ∅;
          source_host := PyStr "localhost"; host := PyStr "127.0.0.1" |} /\
  rejected_config (PyList [PyStr "blue"; PyInt 2]) = false /\
  PyList [PyStr "blue"; PyInt 2] = PyList [PyStr "blue"; PyInt 2] /\
  PyDict ∅ = PyDict ∅ /\
  PyStr "localhost"
  = or_else (PyStr <$> gethostname (PyLib := ref_lib)) (PyStr "").
Proof.
  split; [exact loads_array|]. split; [exact array_no_mapping|].
  split; [exact init_array|].
  exact (non_object_payload (lib := ref_lib) _ _ None
           (_default_json_default (H := ref_lib)) _
           loads_array array_no_mapping init_array).
Defined.

(** * Properties of the store model *)

(** ** Weakest preconditions *)

Lemma wp_run {A} (m : M A) Q σ σ' r : wp m Q σ -> m σ = (σ', r) -> Q σ' r.
Proof. unfold wp. intros HQ Hrun. by rewrite Hrun in HQ. Qed.

Lemma wp_bind {A B} (m : M A) (f : A -> M B) Q σ :
  wp m (fun σ' r => match r with
                    | Ok a => wp (f a) Q σ'
                    | Raise e => Q σ' (Raise e)
                    end) σ ->
  wp (m ≫= f) Q σ.
Proof.
  unfold wp, mbind, M_bind. destruct (m σ) as [σ' [a|e]]; simpl; done.
Qed.

Lemma wp_ret {A} (a : A) Q σ : Q σ (Ok a) -> wp (mret a) Q σ.
Proof. done. Qed.

Lemma wp_lift {A} (r : result A) Q σ : Q σ r -> wp (lift r) Q σ.
Proof. done. Qed.

Lemma wp_get_store Q σ : Q σ (Ok σ) -> wp get_store Q σ.
Proof. done. Qed.

Lemma wp_alloc o Q σ :
  (forall l, σ !! l = None -> Q (<[l := o]> σ) (Ok l)) -> wp (alloc o) Q σ.
Proof.
  intros HQ. unfold wp, alloc. simpl. apply HQ.
  apply not_elem_of_dom, is_fresh.
Qed.

Lemma wp_write l o Q σ : Q (<[l := o]> σ) (Ok ()) -> wp (write l o) Q σ.
Proof. done. Qed.

Lemma wp_the_dict v Q σ :
  match as_dict σ v with
  | Some ld => Q σ (Ok ld)
  | None => Q σ (Raise AttributeError)
  end ->
  wp (the_dict v) Q σ.
Proof. unfold wp, the_dict. simpl. by destruct (as_dict σ v). Qed.

Lemma as_dict_ref σ l d : σ !! l = Some (SDict d) -> as_dict σ (SRef l) = Some (l, d).
Proof. simpl. by intros ->. Qed.

Lemma as_dict_Some σ v l d :
  as_dict σ v = Some (l, d) -> v = SRef l /\ σ !! l = Some (SDict d).
Proof.
  destruct v; simpl; try done. destruct (σ !! l0) as [[]|] eqn:E; try done.
  by intros [= <- <-].
Qed.

(** The operations on a dictionary that is known to be at [l]. *)
Lemma wp_s_update l new d Q σ :
  σ !! l = Some (SDict d) ->
  Q (<[l := SDict (new ∪ d)]> σ) (Ok ()) -> wp (s_update l new) Q σ.
Proof.
  intros Hl HQ. unfold s_update. apply wp_bind, wp_the_dict.
  rewrite (as_dict_ref _ _ _ Hl). by apply wp_write.
Qed.

Lemma wp_s_pop l key d Q σ :
  σ !! l = Some (SDict d) ->
  match d !! key with
  | Some v => Q (<[l := SDict (delete key d)]> σ) (Ok v)
  | None => Q σ (Raise KeyError)
  end ->
  wp (s_pop l key) Q σ.
Proof.
  intros Hl HQ. unfold s_pop. apply wp_bind, wp_the_dict.
  rewrite (as_dict_ref _ _ _ Hl). destruct (d !! key); [|done].
  apply wp_bind, wp_write. by apply wp_ret.
Qed.

Lemma wp_s_pop_default l key dflt d Q σ :
  σ !! l = Some (SDict d) ->
  Q (<[l := SDict (delete key d)]> σ) (Ok (default dflt (d !! key))) ->
  wp (s_pop_default l key dflt) Q σ.
Proof.
  intros Hl HQ. unfold s_pop_default. apply wp_bind, wp_the_dict.
  rewrite (as_dict_ref _ _ _ Hl). apply wp_bind, wp_write. by apply wp_ret.
Qed.

Lemma wp_s_setitem l key v d Q σ :
  σ !! l = Some (SDict d) ->
  Q (<[l := SDict (<[key := v]> d)]> σ) (Ok ()) -> wp (s_setitem l key v) Q σ.
Proof.
  intros Hl HQ. unfold s_setitem. apply wp_bind, wp_the_dict.
  rewrite (as_dict_ref _ _ _ Hl). by apply wp_write.
Qed.

Lemma wp_s_getitem l key d Q σ :
  σ !! l = Some (SDict d) ->
  match d !! key with
  | Some v => Q σ (Ok v)
  | None => Q σ (Raise KeyError)
  end ->
  wp (s_getitem l key) Q σ.
Proof.
  intros Hl HQ. unfold s_getitem. apply wp_bind, wp_the_dict.
  rewrite (as_dict_ref _ _ _ Hl). by destruct (d !! key).
Qed.

Lemma wp_s_getattr obj name Q σ :
  match σ !! obj with
  | Some (SDict attrs) =>
      match attrs !! name with
      | Some v => Q σ (Ok v)
      | None => Q σ (Raise AttributeError)
      end
  | _ => Q σ (Raise AttributeError)
  end ->
  wp (s_getattr obj name) Q σ.
Proof.
  intros HQ. unfold s_getattr. apply wp_bind, wp_the_dict. simpl.
  destruct (σ !! obj) as [[attrs|]|]; try done. by destruct (attrs !! name).
Qed.

Lemma wp_s_copy v Q σ :
  match v with
  | SRef l =>
      match σ !! l with
      | Some o => forall l', σ !! l' = None -> Q (<[l' := o]> σ) (Ok l')
      | None => Q σ (Raise AttributeError)
      end
  | _ => Q σ (Raise AttributeError)
  end ->
  wp (s_copy v) Q σ.
Proof.
  intros HQ. unfold wp, s_copy. destruct v; try done.
  destruct (σ !! l); [|done]. by apply wp_alloc.
Qed.

Lemma wp_s_truthy v Q σ :
  (forall b, Q σ (Ok b)) -> wp (s_truthy v) Q σ.
Proof. intros HQ. apply HQ. Qed.

(** ** Stores that grow *)

Lemma valid_weaken σ σ' v : σ ⊆ σ' -> valid σ v -> valid σ' v.
Proof.
  intros Hsub. destruct v; simpl; try done.
  intros [o Ho]. exists o. by eapply lookup_weaken.
Qed.

Lemma valid_insert σ l o v : valid σ v -> valid (<[l := o]> σ) v.
Proof.
  destruct v as [| | | | | | | |l']; simpl; try done.
  intros Hv. destruct (decide (l = l')) as [->|Hne].
  - rewrite lookup_insert_eq. by eexists.
  - by rewrite lookup_insert_ne.
Qed.

Lemma as_dict_weaken σ σ' v : σ ⊆ σ' -> valid σ v -> as_dict σ' v = as_dict σ v.
Proof.
  intros Hsub. destruct v; simpl; try done.
  intros [o Ho]. by rewrite Ho, (lookup_weaken _ _ _ _ Ho Hsub).
Qed.

Lemma closed_insert_dict σ l d :
  closed σ ->
  (forall k v, d !! k = Some v -> valid (<[l := SDict d]> σ) v) ->
  closed (<[l := SDict d]> σ).
Proof.
  intros Hc Hd l' d' k v Hl' Hk.
  destruct (decide (l = l')) as [->|Hne].
  - rewrite lookup_insert_eq in Hl'. simplify_eq. by eapply Hd.
  - rewrite lookup_insert_ne in Hl' by done.
    by apply valid_insert, (Hc l' d' k v).
Qed.

Lemma closed_insert_list σ l vs : closed σ -> closed (<[l := SList vs]> σ).
Proof.
  intros Hc l' d' k v Hl' Hk.
  destruct (decide (l = l')) as [->|Hne].
  - by rewrite lookup_insert_eq in Hl'.
  - rewrite lookup_insert_ne in Hl' by done.
    by apply valid_insert, (Hc l' d' k v).
Qed.

Lemma closed_insert_copy σ l l' o :
  closed σ -> σ !! l' = Some o -> closed (<[l := o]> σ).
Proof.
  intros Hc Ho. destruct o as [d|vs].
  - apply closed_insert_dict; [done|]. intros k v Hk.
    by apply valid_insert, (Hc l' d k v).
  - by apply closed_insert_list.
Qed.

(** ** The steps of [format] over the store *)

Lemma post_raise {A} σ0 (Q : A -> store -> Prop) σ e :
  σ0 ⊆ σ -> closed σ -> post σ0 Q σ (Raise e).
Proof. intros ??. by split_and!. Qed.

Lemma post_ok {A} σ0 (Q : A -> store -> Prop) σ a :
  σ0 ⊆ σ -> closed σ -> Q a σ -> post σ0 Q σ (Ok a).
Proof. intros ???. split_and!; [done..|]. by intros ? [= <-]. Qed.

Lemma wp_seq {A B} σ0 (m : M A) (f : A -> M B) Q1 Q2 σ :
  wp m (post σ0 Q1) σ ->
  (forall a σ', σ0 ⊆ σ' -> closed σ' -> Q1 a σ' -> wp (f a) (post σ0 Q2) σ') ->
  wp (m ≫= f) (post σ0 Q2) σ.
Proof.
  intros Hm Hf. apply wp_bind. unfold wp in *.
  destruct (m σ) as [σ' [a|e]]; simpl in *; destruct Hm as (? & ? & HQ).
  - apply Hf; auto.
  - by apply post_raise.
Qed.

Lemma wp_post_mono {A} σ0 (m : M A) (Q1 Q2 : A -> store -> Prop) σ :
  wp m (post σ0 Q1) σ -> (forall a σ', σ0 ⊆ σ' -> closed σ' -> Q1 a σ' -> Q2 a σ') ->
  wp m (post σ0 Q2) σ.
Proof.
  unfold wp, post. intros (? & ? & HQ) Himp. split_and!; [done..|].
  intros a Ha. apply Himp; auto.
Qed.

Lemma working_write σ0 record fields σ (fd' : sdict) :
  σ0 ⊆ σ -> closed σ -> working σ0 record fields σ ->
  (forall k v, fd' !! k = Some v ->
               from_record σ0 record k v /\ valid (<[fields := SDict fd']> σ) v) ->
  σ0 ⊆ <[fields := SDict fd']> σ /\ closed (<[fields := SDict fd']> σ) /\
  working σ0 record fields (<[fields := SDict fd']> σ).
Proof.
  intros Hsub Hc (Hfresh & fd & Hfd & Hfrom) Hnew. split_and!.
  - by apply insert_subseteq_r.
  - apply closed_insert_dict; [done|]. intros k v Hk. by apply (Hnew k v).
  - split; [done|]. exists fd'. split; [apply lookup_insert_eq|].
    intros k v Hk. by apply (Hnew k v).
Qed.

Lemma working_alloc σ0 record fields σ l o :
  σ0 ⊆ σ -> closed σ -> working σ0 record fields σ -> σ !! l = None ->
  closed (<[l := o]> σ) ->
  σ0 ⊆ <[l := o]> σ /\ σ0 !! l = None /\ l <> fields /\
  working σ0 record fields (<[l := o]> σ).
Proof.
  intros Hsub Hc (Hfresh & fd & Hfd & Hfrom) Hl Hc'.
  assert (σ0 !! l = None) as Hl0.
  { destruct (σ0 !! l) eqn:E; [|done]. by rewrite (lookup_weaken _ _ _ _ E Hsub) in Hl. }
  assert (l <> fields) as Hne by congruence.
  split_and!; [by apply insert_subseteq_r|done..|].
  split; [done|]. exists fd. split; [by rewrite lookup_insert_ne|done].
Qed.

Section StoreSteps.
Context `{slib : StoreLib}.
Implicit Types (σ : store) (self record fields : loc).

Lemma supplied_valid σ0 record k v :
  closed σ0 -> s_supplied σ0 record !! k = Some v -> valid σ0 v.
Proof.
  intros Hc. unfold s_supplied.
  destruct (as_dict σ0 (SRef record)) as [[lr attrs]|] eqn:Hrec; [|done].
  apply as_dict_Some in Hrec as [_ Hrec].
  destruct (as_dict σ0 (default SNone (attrs !! "msg"))) as [[lm m]|] eqn:Hm.
  - apply as_dict_Some in Hm as [_ Hm].
    intros [Hk | [_ Hk]]%lookup_union_Some_raw.
    + by apply (Hc lm m k v).
    + by apply (Hc lr attrs k v).
  - intros Hk. by apply (Hc lr attrs k v).
Qed.

Lemma s_resolve_message_spec σ0 record :
  closed σ0 ->
  wp (s_resolve_message record)
     (post σ0 (fun '(fields, _) σ => working σ0 record fields σ)) σ0.
Proof.
  intros Hc. unfold s_resolve_message. apply wp_bind, wp_the_dict.
  destruct (as_dict σ0 (SRef record)) as [[lr attrs]|] eqn:Hrec;
    [|by apply post_raise].
  destruct (as_dict_Some _ _ _ _ Hrec) as [[= <-] Hattrs].
  apply wp_bind, wp_alloc. intros fields Hfresh.
  assert (record <> fields) as Hne by congruence.
  assert (forall fd, σ0 ⊆ <[fields := SDict fd]> σ0) as Hsub.
  { intros fd. by apply insert_subseteq. }
  assert (closed (<[fields := SDict attrs]> σ0)) as Hc1.
  { apply closed_insert_dict; [done|]. intros k v Hk.
    by apply valid_insert, (Hc record attrs k v). }
  apply wp_bind, wp_s_getattr. rewrite lookup_insert_ne, Hattrs by done.
  destruct (attrs !! "msg") as [raw|] eqn:Hraw; [|by apply post_raise].
  apply wp_bind, wp_get_store.
  assert (valid σ0 raw) as Hvraw by by apply (Hc record attrs "msg" raw).
  rewrite (as_dict_weaken σ0) by auto.
  assert (s_supplied σ0 record =
          match as_dict σ0 raw with Some (_, m) => m ∪ attrs | None => attrs end)
    as Hsup.
  { unfold s_supplied. by rewrite Hrec, Hraw. }
  destruct (as_dict σ0 raw) as [[lm m]|] eqn:Hm.
  - destruct (as_dict_Some _ _ _ _ Hm) as [_ Hm'].
    apply wp_bind, (wp_s_update _ _ attrs); [apply lookup_insert_eq|].
    rewrite insert_insert_eq.
    apply wp_bind, (wp_s_pop _ _ (m ∪ attrs)); [apply lookup_insert_eq|].
    destruct ((m ∪ attrs) !! "msg") eqn:Hmsg.
    + rewrite insert_insert_eq. apply wp_ret.
      assert (forall k v, delete "msg" (m ∪ attrs) !! k = Some v ->
                          s_supplied σ0 record !! k = Some v) as Hin.
      { intros k v [_ Hk]%lookup_delete_Some. by rewrite Hsup. }
      apply post_ok; [done| |].
      * apply closed_insert_dict; [done|]. intros k v Hk.
        eapply valid_insert, supplied_valid; eauto.
      * split; [done|]. eexists. split; [apply lookup_insert_eq|].
        intros k v Hk. left. by apply Hin.
    + apply post_raise; [done|].
      apply closed_insert_dict; [done|]. intros k v Hk.
      assert (s_supplied σ0 record !! k = Some v) by by rewrite Hsup.
      eapply valid_insert, supplied_valid; eauto.
  - apply wp_bind, wp_lift.
    destruct (s_getMessage _ record) as [msg|e]; [|by apply post_raise].
    apply wp_ret. apply post_ok; [done..|].
    split; [done|]. exists attrs. split; [apply lookup_insert_eq|].
    intros k v Hk. left. by rewrite Hsup.
Qed.

Lemma s_interpolate_spec σ0 record fields msg σ :
  σ0 ⊆ σ -> closed σ -> working σ0 record fields σ ->
  wp (s_interpolate msg fields)
     (post σ0 (fun _ σ' => working σ0 record fields σ' /\
                           forall v, valid σ v -> valid σ' v)) σ.
Proof.
  intros Hsub Hc Hw. unfold s_interpolate. apply wp_bind, wp_the_dict.
  destruct (as_dict σ (SRef fields)) as [[? kwargs]|]; [|by apply post_raise].
  apply wp_bind, wp_get_store. apply wp_lift.
  destruct (s_str_format σ msg kwargs) as [text|e].
  - by apply post_ok.
  - destruct e; try by apply post_raise.
    all: by apply post_ok.
Qed.

Lemma s_add_exception_spec σ0 record fields σ :
  σ0 ⊆ σ -> closed σ -> working σ0 record fields σ ->
  wp (s_add_exception fields)
     (post σ0 (fun _ σ' => working σ0 record fields σ' /\
                           forall v, valid σ v -> valid σ' v)) σ.
Proof.
  intros Hsub Hc Hw. unfold s_add_exception.
  destruct Hw as (Hfresh & fd & Hfd & Hfrom) eqn:E.
  assert (working σ0 record fields σ) as Hw' by done. clear E.
  apply wp_bind, wp_the_dict. rewrite (as_dict_ref _ _ _ Hfd).
  apply wp_bind, wp_s_truthy. intros [|]; [|by apply wp_ret, post_ok].
  apply wp_bind, (wp_s_getitem _ _ fd); [done|].
  destruct (fd !! "exc_info") as [exc_info|]; [|by apply post_raise].
  apply wp_bind, wp_get_store. apply wp_bind, wp_lift.
  destruct (s_format_exception σ exc_info) as [lines|e]; [|by apply post_raise].
  apply wp_bind, wp_alloc. intros formatted Hformatted.
  destruct (working_alloc σ0 record fields σ formatted (SList (SStr <$> lines)))
    as (Hsub1 & Hfresh1 & Hne & Hw1); [done..| by apply closed_insert_list |].
  apply (wp_s_setitem _ _ _ fd); [by rewrite lookup_insert_ne|].
  edestruct (working_write σ0 record fields
               (<[formatted := SList (SStr <$> lines)]> σ)
               (<["exception" := SRef formatted]> fd))
    as (Hsub2 & Hc2 & Hw2); [done | by apply closed_insert_list | done | |].
  - intros k v [[<- <-] | [_ Hk]]%lookup_insert_Some.
    + split; [right; split; [done|]; by exists formatted|].
      simpl. rewrite lookup_insert_ne, lookup_insert_eq by done. by eexists.
    + split; [by apply Hfrom|]. do 2 apply valid_insert.
      by apply (Hc fields fd k v).
  - apply post_ok; [done..|]. split; [done|].
    intros v Hv. by do 2 apply valid_insert.
Qed.

Lemma s_pop_default_spec σ0 record fields key dflt σ :
  σ0 ⊆ σ -> closed σ -> working σ0 record fields σ -> valid σ dflt ->
  wp (s_pop_default fields key dflt)
     (post σ0 (fun v σ' => working σ0 record fields σ' /\ valid σ' v /\
                           forall v, valid σ v -> valid σ' v)) σ.
Proof.
  intros Hsub Hc Hw Hdflt.
  destruct Hw as (Hfresh & fd & Hfd & Hfrom) eqn:E.
  assert (working σ0 record fields σ) as Hw' by done. clear E.
  apply (wp_s_pop_default _ _ _ fd); [done|].
  edestruct (working_write σ0 record fields σ (delete key fd))
    as (Hsub2 & Hc2 & Hw2); [done..| |].
  - intros k v [_ Hk]%lookup_delete_Some.
    split; [by apply Hfrom|]. by apply valid_insert, (Hc fields fd k v).
  - apply post_ok; [done..|]. split_and!; [done| |].
    + apply valid_insert. destruct (fd !! key) as [v|] eqn:Hk; simpl; [|done].
      by apply (Hc fields fd key v).
    + intros v Hv. by apply valid_insert.
Qed.

Lemma s_strip_unwanted_spec σ0 record fields σ :
  σ0 ⊆ σ -> closed σ -> working σ0 record fields σ ->
  wp (s_strip_unwanted fields)
     (post σ0 (fun _ σ' => working σ0 record fields σ' /\
                           forall v, valid σ v -> valid σ' v)) σ.
Proof.
  unfold s_strip_unwanted. generalize unwanted_tags as tags. intros tags.
  revert σ. induction tags as [|tag tags IH]; intros σ Hsub Hc Hw; cbn [foldr].
  - by apply wp_ret, post_ok.
  - eapply wp_seq; [by apply (s_pop_default_spec σ0 record)|].
    intros _ σ' Hsub' Hc' (Hw' & _ & Hmono).
    eapply wp_post_mono; [by apply IH|].
    intros _ σ'' _ _ [Hw'' Hmono']. split; [done|]. auto.
Qed.

Lemma s_extract_fields_spec σ0 record fields σ :
  σ0 ⊆ σ -> closed σ -> working σ0 record fields σ ->
  wp (s_extract_fields fields)
     (post σ0 (fun '(loglevel, worker_guid) σ' =>
                 working σ0 record fields σ' /\
                 valid σ' loglevel /\ valid σ' worker_guid)) σ.
Proof.
  intros Hsub Hc Hw. unfold s_extract_fields.
  eapply wp_seq; [by apply (s_add_exception_spec σ0 record)|].
  intros _ σ1 Hsub1 Hc1 [Hw1 _].
  eapply wp_seq; [by apply (s_pop_default_spec σ0 record)|].
  intros loglevel σ2 Hsub2 Hc2 (Hw2 & Hll & _).
  eapply wp_seq; [by apply (s_pop_default_spec σ0 record)|].
  intros worker_guid σ3 Hsub3 Hc3 (Hw3 & Hwg & Hmono3).
  eapply wp_seq; [by apply (s_strip_unwanted_spec σ0 record)|].
  intros _ σ4 Hsub4 Hc4 (Hw4 & Hmono4).
  apply wp_ret, post_ok; [done..|]. split_and!; auto.
Qed.
End StoreSteps.

Section StoreDocument.
Context `{slib : StoreLib}.
Implicit Types (σ : store) (self record fields : loc).

Lemma fresh_in σ0 σ l : σ0 ⊆ σ -> σ !! l = None -> σ0 !! l = None.
Proof.
  intros Hsub Hl. destruct (σ0 !! l) eqn:E; [|done].
  by rewrite (lookup_weaken _ _ _ _ E Hsub) in Hl.
Qed.

Lemma s_assemble_spec σ0 self record fields now msg loglevel worker_guid σ :
  closed σ0 -> is_Some (σ0 !! self) ->
  σ0 ⊆ σ -> closed σ -> working σ0 record fields σ ->
  valid σ loglevel -> valid σ worker_guid ->
  wp (s_assemble self now msg loglevel worker_guid fields)
     (post σ0 (fields_object σ0 (provenance σ0 self record))) σ.
Proof.
  intros Hc0 [oself Hself0] Hsub Hc (Hfresh & fd & Hfd & Hfrom) Hll Hwg.
  assert (σ !! self = Some oself) as Hself by by eapply lookup_weaken.
  unfold s_assemble. apply wp_bind, wp_s_getattr. rewrite Hself.
  destruct oself as [attrs|]; [|by apply post_raise].
  destruct (attrs !! "defaults") as [dv|] eqn:Hdv; [|by apply post_raise].
  assert (valid σ0 dv) as Hvdv by by apply (Hc0 self attrs "defaults" dv).
  apply wp_bind, wp_s_copy.
  destruct dv as [| | | | | | | |ld]; try by apply post_raise.
  destruct Hvdv as [od Hld0].
  assert (σ !! ld = Some od) as Hld by by eapply lookup_weaken.
  rewrite Hld. intros logr Hlogr.
  assert (σ0 !! logr = None) as Hlogr0 by by eapply fresh_in.
  assert (logr <> fields) as Hne1 by congruence.
  assert (logr <> self) as Hne2 by congruence.
  set (σ1 := <[logr := od]> σ).
  assert (σ0 ⊆ σ1) as Hsub1 by by apply insert_subseteq_r.
  assert (closed σ1) as Hc1 by by eapply closed_insert_copy.
  apply wp_bind, wp_the_dict. simpl. unfold σ1 at 1. rewrite lookup_insert_eq.
  destruct od as [d|]; [|by apply post_raise].
  apply wp_bind, wp_s_getattr. unfold σ1 at 1.
  rewrite lookup_insert_ne, Hself by done.
  destruct (attrs !! "source_host") as [source_host|] eqn:Hsh;
    [|by apply post_raise].
  apply wp_bind, wp_s_getattr. unfold σ1 at 1.
  rewrite lookup_insert_ne, Hself by done.
  destruct (attrs !! "host") as [host|] eqn:Hhost; [|by apply post_raise].
  assert (valid σ0 source_host) as Hvsh
    by by apply (Hc0 self attrs "source_host" source_host).
  assert (valid σ0 host) as Hvhost by by apply (Hc0 self attrs "host" host).
  (* _build_fields *)
  apply wp_bind. unfold s_build_fields.
  apply wp_bind, wp_the_dict. simpl. unfold σ1 at 1. rewrite lookup_insert_eq.
  apply wp_bind, wp_alloc. intros empty Hempty.
  assert (σ0 !! empty = None) as Hempty0 by by eapply fresh_in.
  set (σ2 := <[empty := SDict ∅]> σ1).
  assert (σ0 ⊆ σ2) as Hsub2 by by apply insert_subseteq_r.
  assert (closed σ2) as Hc2.
  { apply closed_insert_dict; [done|]. by intros k v. }
  assert (σ1 !! fields = Some (SDict fd)) as Hfd1.
  { unfold σ1. by rewrite lookup_insert_ne. }
  assert (σ1 !! logr = Some (SDict d)) as Hl1 by apply lookup_insert_eq.
  assert (empty <> fields) as Hne5 by congruence.
  assert (empty <> logr) as Hne6 by congruence.
  assert (σ2 !! logr = Some (SDict d)) as Hl2.
  { unfold σ2. by rewrite lookup_insert_ne. }
  assert (σ2 !! fields = Some (SDict fd)) as Hfd2.
  { unfold σ2. by rewrite lookup_insert_ne. }
  assert (exists nested,
             as_dict σ2 (default (SRef empty) (d !! "@fields"))
             = match d !! "@fields" with
               | None => Some (empty, ∅)
               | Some vn => as_dict σ0 vn
               end /\
             s_nested_defaults σ0 self =
             match match d !! "@fields" with
                   | None => None
                   | Some vn => as_dict σ0 vn
                   end with
             | Some (_, n) => n
             | None => ∅
             end /\ nested = s_nested_defaults σ0 self) as (nested & Hnested & Hnd & _).
  { exists (s_nested_defaults σ0 self). split_and!; [| |done].
    - destruct (d !! "@fields") as [vn|] eqn:Hvn; simpl.
      + apply as_dict_weaken; [done|]. by apply (Hc0 ld d "@fields" vn).
      + unfold σ2. by rewrite lookup_insert_eq.
    - unfold s_nested_defaults. simpl. rewrite Hself0, Hdv. simpl.
      rewrite Hld0. by destruct (d !! "@fields"). }
  apply wp_bind, wp_the_dict. rewrite Hnested.
  destruct (match d !! "@fields" with
            | Some vn => as_dict σ0 vn
            | None => Some (empty, ∅)
            end) as [[ln n]|] eqn:Hn; [|by apply post_raise].
  assert (forall k v, n !! k = Some v ->
            s_nested_defaults σ0 self !! k = Some v /\ valid σ0 v) as Hnprov.
  { intros k v Hk. rewrite Hnd.
    destruct (d !! "@fields") as [vn|]; [|by simplify_eq].
    rewrite Hn. split; [done|].
    destruct (as_dict_Some _ _ _ _ Hn) as [_ Hln]. by apply (Hc0 ln n k v). }
  apply wp_bind, wp_the_dict. rewrite (as_dict_ref _ _ _ Hfd2).
  apply wp_alloc. intros built Hbuilt. rewrite s_dict_items.
  assert (σ0 !! built = None) as Hbuilt0 by by eapply fresh_in.
  set (σ3 := <[built := SDict (fd ∪ n)]> σ2).
  assert (σ0 ⊆ σ3) as Hsub3 by by apply insert_subseteq_r.
  assert (forall v, valid σ v -> valid σ3 v) as Hmono.
  { intros v Hv. by do 3 apply valid_insert. }
  assert (closed σ3) as Hc3.
  { apply closed_insert_dict; [done|].
    intros k v [Hk | [_ Hk]]%lookup_union_Some_raw.
    - by apply Hmono, (Hc fields fd k v).
    - eapply valid_weaken; [done|]. by apply (Hnprov k v). }
  assert (forall k v, (fd ∪ n) !! k = Some v -> provenance σ0 self record k v)
    as Hprov.
  { intros k v [Hk | [_ Hk]]%lookup_union_Some_raw.
    - destruct (Hfrom k v Hk) as [?|?]; [by left | by right; right].
    - right; left. by apply Hnprov. }
  (* the dictionary literal and the update *)
  apply wp_bind, wp_alloc. intros items Hitems.
  match goal with |- context [<[items := SDict ?lit]> σ3] => set (new := lit) end.
  set (σ4 := <[items := SDict new]> σ3).
  assert (σ0 ⊆ σ4) as Hsub4.
  { apply insert_subseteq_r; [by eapply fresh_in|done]. }
  assert (σ3 !! built = Some (SDict (fd ∪ n))) as Hb3 by apply lookup_insert_eq.
  assert (built <> logr) as Hne7 by congruence.
  assert (σ3 !! logr = Some (SDict d)) as Hl3.
  { unfold σ3. by rewrite lookup_insert_ne. }
  assert (forall k v, new !! k = Some v -> valid σ3 v) as Hnew.
  { intros k v. unfold new.
    repeat (intros [[<- <-] | [_ Hk]]%lookup_insert_Some; [|revert Hk]);
      try done.
    - by eapply valid_weaken.
    - by apply Hmono.
    - by apply Hmono.
    - by eapply valid_weaken.
    - simpl. by eexists. }
  assert (closed σ4) as Hc4.
  { apply closed_insert_dict; [done|]. intros k v Hk.
    by apply valid_insert, (Hnew k v). }
  apply wp_bind, wp_the_dict. simpl. unfold σ4 at 1. rewrite lookup_insert_eq.
  assert (items <> logr) as Hne3 by congruence.
  assert (items <> built) as Hne4 by congruence.
  apply wp_bind, (wp_s_update _ _ d).
  { unfold σ4. by rewrite lookup_insert_ne. }
  apply wp_ret. apply post_ok.
  - by apply insert_subseteq_r.
  - apply closed_insert_dict; [done|].
    intros k v [Hk | [_ Hk]]%lookup_union_Some_raw.
    + do 2 apply valid_insert. by apply (Hnew k v).
    + do 2 apply valid_insert. by apply (Hc3 logr d k v).
  - exists (new ∪ d), built, (fd ∪ n). split_and!; [| |done| |done].
    + apply lookup_insert_eq.
    + by apply lookup_union_Some_l.
    + unfold σ4. by rewrite !lookup_insert_ne.
Qed.

(** One call: the objects there were are as they were, and the
    ['@fields'] of the document is a new dictionary whose entries come
    from the record and from the nested defaults. *)
Lemma s_format_logr_spec σ0 self record now :
  closed σ0 -> is_Some (σ0 !! self) ->
  wp (s_format_logr self record now)
     (post σ0 (fields_object σ0 (provenance σ0 self record))) σ0.
Proof.
  intros Hc0 Hself. unfold s_format_logr.
  eapply wp_seq; [by apply s_resolve_message_spec|].
  intros [fields msg0] σ1 Hsub1 Hc1 Hw1.
  eapply wp_seq; [by apply (s_interpolate_spec σ0 record)|].
  intros msg σ2 Hsub2 Hc2 [Hw2 _].
  eapply wp_seq; [by apply (s_extract_fields_spec σ0 record)|].
  intros [loglevel worker_guid] σ3 Hsub3 Hc3 (Hw3 & Hll & Hwg).
  by apply (s_assemble_spec σ0 self record).
Qed.

Lemma s_format_spec σ0 self record now :
  closed σ0 -> is_Some (σ0 !! self) ->
  wp (s_format self record now) (post σ0 (fun _ _ => True)) σ0.
Proof.
  intros Hc0 Hself. unfold s_format.
  eapply wp_seq; [by apply s_format_logr_spec|].
  intros logr σ1 Hsub1 Hc1 _.
  apply wp_bind, wp_s_getattr.
  destruct (σ1 !! self) as [[attrs|]|]; try by apply post_raise.
  destruct (attrs !! "json_default"); [|by apply post_raise].
  apply wp_bind, wp_s_getattr.
  destruct (σ1 !! self) as [[attrs'|]|]; try by apply post_raise.
  destruct (attrs' !! "json_cls"); [|by apply post_raise].
  apply wp_bind, wp_get_store. apply wp_lift.
  destruct (s_json_dumps _ _ _ _); [by apply post_ok | by apply post_raise].
Qed.
End StoreDocument.

Section RepeatedCalls.
Context `{slib : StoreLib}.
Implicit Types (σ : store) (self record : loc).

(** A later store shows the configured defaults and the record as the
    earlier one does. *)
Lemma s_nested_defaults_weaken σ0 σ self :
  closed σ0 -> σ0 ⊆ σ -> is_Some (σ0 !! self) ->
  s_nested_defaults σ self = s_nested_defaults σ0 self.
Proof.
  intros Hc Hsub [o Ho]. unfold s_nested_defaults. simpl.
  rewrite Ho, (lookup_weaken _ _ _ _ Ho Hsub).
  destruct o as [attrs|]; [|done].
  assert (valid σ0 (default SNone (attrs !! "defaults"))) as Hv.
  { destruct (attrs !! "defaults") as [dv|] eqn:Hdv; [|done].
    by apply (Hc self attrs "defaults" dv). }
  rewrite (as_dict_weaken σ0 σ) by done.
  destruct (as_dict σ0 _) as [[ld d]|] eqn:Hd; [|done].
  apply as_dict_Some in Hd as [_ Hd].
  rewrite (as_dict_weaken σ0 σ); [done..|].
  destruct (d !! "@fields") as [vn|] eqn:Hvn; [|done].
  by apply (Hc ld d "@fields" vn).
Qed.

Lemma s_supplied_weaken σ0 σ record :
  closed σ0 -> σ0 ⊆ σ -> is_Some (σ0 !! record) ->
  s_supplied σ record = s_supplied σ0 record.
Proof.
  intros Hc Hsub [o Ho]. unfold s_supplied. simpl.
  rewrite Ho, (lookup_weaken _ _ _ _ Ho Hsub).
  destruct o as [attrs|]; [|done].
  rewrite (as_dict_weaken σ0 σ); [done..|].
  destruct (attrs !! "msg") as [raw|] eqn:Hraw; [|done].
  by apply (Hc record attrs "msg" raw).
Qed.

Lemma s_format_logr_run σ0 self record now σ res :
  closed σ0 -> is_Some (σ0 !! self) ->
  s_format_logr self record now σ0 = (σ, res) ->
  σ0 ⊆ σ /\ closed σ /\
  forall logr, res = Ok logr ->
               fields_object σ0 (provenance σ0 self record) logr σ.
Proof.
  intros Hc Hself Hrun.
  apply (wp_run _ _ _ _ _ (s_format_logr_spec σ0 self record now Hc Hself) Hrun).
Qed.

(** [format] leaves the store as the part of it before [json.dumps]
    does, and returns only if that part gives a document. *)
Lemma s_format_run self record now σ0 σ out :
  s_format self record now σ0 = (σ, out) ->
  exists res, s_format_logr self record now σ0 = (σ, res) /\
              (returns out -> returns res).
Proof.
  unfold s_format, mbind, M_bind.
  destruct (s_format_logr self record now σ0) as [σ1 [logr|e]] eqn:Hrun.
  - intros Hout. exists (Ok logr).
    assert (σ = σ1) as ->.
    { revert Hout. unfold s_getattr, the_dict, mbind, M_bind, lift, get_store,
        mret, M_ret.
      repeat (case_match; simplify_eq/=); congruence. }
    split; [done|]. intros _. by exists logr.
  - intros [= <- <-]. exists (Raise e). split; [done|]. by intros [? ?].
Qed.

(** C8: two calls of [format] on one formatter, from a store [σ0] with
    no dangling entry. Every object of [σ0] (the configured defaults and
    the lists and dictionaries in them, the records) is the same after
    the first call and after the second; the nested defaults that the
    second call reads are those of [σ0]; and the ['@fields'] of the
    second call is a dictionary that did not exist before that call,
    whose entries come from the second record, from the nested defaults,
    or are the traceback lines of that call. *)
Theorem repeated_calls σ0 self record1 record2 now1 now2 σ1 out1 σ2 out2 :
  closed σ0 -> is_Some (σ0 !! self) ->
  s_format self record1 now1 σ0 = (σ1, out1) ->
  s_format self record2 now2 σ1 = (σ2, out2) ->
  (forall l o, σ0 !! l = Some o -> σ1 !! l = Some o /\ σ2 !! l = Some o) /\
  s_nested_defaults σ1 self = s_nested_defaults σ0 self /\
  (is_Some (σ0 !! record2) -> s_supplied σ1 record2 = s_supplied σ0 record2) /\
  exists res2,
    s_format_logr self record2 now2 σ1 = (σ2, res2) /\
    (returns out2 -> returns res2) /\
    forall logr, res2 = Ok logr ->
                 fields_object σ1 (provenance σ1 self record2) logr σ2.
Proof.
  intros Hc0 Hself Hrun1 Hrun2.
  destruct (s_format_run _ _ _ _ _ _ Hrun1) as (res1 & Hlogr1 & _).
  destruct (s_format_run _ _ _ _ _ _ Hrun2) as (res2 & Hlogr2 & Hret2).
  destruct (s_format_logr_run _ _ _ _ _ _ Hc0 Hself Hlogr1) as (Hsub1 & Hc1 & _).
  assert (is_Some (σ1 !! self)) as Hself1.
  { destruct Hself as [o Ho]. exists o. by eapply lookup_weaken. }
  destruct (s_format_logr_run _ _ _ _ _ _ Hc1 Hself1 Hlogr2) as (Hsub2 & Hc2 & Hdoc).
  split_and!.
  - intros l o Ho. split; [by eapply lookup_weaken|].
    eapply lookup_weaken; [|done]. by eapply lookup_weaken.
  - by apply s_nested_defaults_weaken.
  - intros Hrec. by apply s_supplied_weaken.
  - by exists res2.
Qed.
End RepeatedCalls.
(** ** The document and the configured defaults *)

Section StoreFurther.
Context `{slib : StoreLib}.
Implicit Types (σ : store) (self record fields : loc).

Lemma reserved_literal_lookup (k : string)
    (v1 v2 v3 v4 v5 v6 v7 v8 : sval) :
  k ∉ reserved_keys ->
  (<["@message" := v1]>
   (<["@timestamp" := v2]>
   (<["@source_host" := v3]>
   (<["loglevel" := v4]>
   (<["worker_guid" := v5]>
   (<["logging_type" := v6]>
   (<["@host" := v7]>
   (<["@fields" := v8]> (∅ : sdict))))))))) !! k = None.
Proof.
  intros Hk. apply not_elem_of_dom. rewrite !dom_insert_L, dom_empty_L.
  intros Hin. apply Hk. unfold reserved_keys. set_solver.
Qed.

(** [logr] is a new dictionary; outside the reserved keys it has the
    entries of the configured defaults, which are as they were. *)
Lemma s_assemble_document self now msg loglevel worker_guid fields σ :
  wp (s_assemble self now msg loglevel worker_guid fields)
     (fun σ' r => forall logr, r = Ok logr ->
        σ !! logr = None /\
        exists attrs ld d items,
          σ !! self = Some (SDict attrs) /\
          attrs !! "defaults" = Some (SRef ld) /\
          σ !! ld = Some (SDict d) /\
          σ' !! logr = Some (SDict items) /\
          forall k, k ∉ reserved_keys -> items !! k = d !! k) σ.
Proof.
  unfold s_assemble. apply wp_bind, wp_s_getattr.
  destruct (σ !! self) as [[attrs|]|] eqn:Hself; try by intros ? [=].
  destruct (attrs !! "defaults") as [dv|] eqn:Hdv; [|by intros ? [=]].
  apply wp_bind, wp_s_copy.
  destruct dv as [| | | | | | | |ld]; try by intros ? [=].
  destruct (σ !! ld) as [od|] eqn:Hld; [|by intros ? [=]].
  intros logr Hlogr.
  assert (logr <> self) as Hne1 by congruence.
  set (σ1 := <[logr := od]> σ).
  apply wp_bind, wp_the_dict. simpl. unfold σ1 at 1. rewrite lookup_insert_eq.
  destruct od as [d|]; [|by intros ? [=]].
  assert (σ1 !! self = Some (SDict attrs)) as Hself1.
  { unfold σ1. by rewrite lookup_insert_ne. }
  apply wp_bind, wp_s_getattr. rewrite Hself1.
  destruct (attrs !! "source_host") as [source_host|]; [|by intros ? [=]].
  apply wp_bind, wp_s_getattr. rewrite Hself1.
  destruct (attrs !! "host") as [host|]; [|by intros ? [=]].
  apply wp_bind. unfold s_build_fields.
  apply wp_bind, wp_the_dict. simpl. unfold σ1 at 1. rewrite lookup_insert_eq.
  apply wp_bind, wp_alloc. intros empty Hempty.
  assert (empty <> logr) as Hne2.
  { intros ->. unfold σ1 in Hempty. by rewrite lookup_insert_eq in Hempty. }
  set (σ2 := <[empty := SDict ∅]> σ1).
  assert (σ2 !! logr = Some (SDict d)) as Hl2.
  { unfold σ2, σ1. by rewrite lookup_insert_ne, lookup_insert_eq. }
  apply wp_bind, wp_the_dict.
  destruct (as_dict σ2 _) as [[ln n]|]; [|by intros ? [=]].
  apply wp_bind, wp_the_dict.
  destruct (as_dict σ2 (SRef fields)) as [[lf fd]|]; [|by intros ? [=]].
  apply wp_alloc. intros built Hbuilt.
  assert (built <> logr) as Hne3 by congruence.
  match goal with |- context [<[built := ?o]> σ2] => set (σ3 := <[built := o]> σ2) end.
  assert (σ3 !! logr = Some (SDict d)) as Hl3.
  { unfold σ3. by rewrite lookup_insert_ne. }
  apply wp_bind, wp_alloc. intros items Hitems.
  assert (items <> logr) as Hne4 by congruence.
  match goal with |- context [<[items := SDict ?lit]> σ3] => set (new := lit) end.
  set (σ4 := <[items := SDict new]> σ3).
  apply wp_bind, wp_the_dict. simpl. unfold σ4 at 1. rewrite lookup_insert_eq.
  apply wp_bind, (wp_s_update _ _ d).
  { unfold σ4. by rewrite lookup_insert_ne. }
  apply wp_ret. intros logr' [= <-]. split; [done|].
  exists attrs, ld, d, (new ∪ d). split_and!; [done..|apply lookup_insert_eq|].
  intros k Hk. apply lookup_union_r. by apply reserved_literal_lookup.
Qed.

(** X15: the document of a call is a dictionary that did not exist
    before the call, and outside the eight reserved keys it has the
    entries of the configured defaults, each with the value that the
    defaults hold: the copy is shallow, a list or dictionary among the
    default values is the same object in the document. *)
Theorem document_shares_defaults σ0 self record now σ logr :
  closed σ0 -> is_Some (σ0 !! self) ->
  s_format_logr self record now σ0 = (σ, Ok logr) ->
  σ0 !! logr = None /\
  exists attrs ld d items,
    σ0 !! self = Some (SDict attrs) /\
    attrs !! "defaults" = Some (SRef ld) /\
    σ0 !! ld = Some (SDict d) /\
    σ !! logr = Some (SDict items) /\
    forall k, k ∉ reserved_keys -> items !! k = d !! k.
Proof.
  intros Hc0 Hself Hrun.
  assert (wp (s_format_logr self record now)
            (post σ0 (fun logr σ =>
               σ0 !! logr = None /\
               exists attrs ld d items,
                 σ0 !! self = Some (SDict attrs) /\
                 attrs !! "defaults" = Some (SRef ld) /\
                 σ0 !! ld = Some (SDict d) /\
                 σ !! logr = Some (SDict items) /\
                 forall k, k ∉ reserved_keys -> items !! k = d !! k)) σ0)
    as Hwp.
  { unfold s_format_logr.
    eapply wp_seq; [by apply s_resolve_message_spec|].
    intros [fields msg0] σ1 Hsub1 Hc1 Hw1.
    eapply wp_seq; [by apply (s_interpolate_spec σ0 record)|].
    intros msg σ2 Hsub2 Hc2 [Hw2 _].
    eapply wp_seq; [by apply (s_extract_fields_spec σ0 record)|].
    intros [loglevel worker_guid] σ3 Hsub3 Hc3 (Hw3 & Hll & Hwg).
    pose proof (s_assemble_spec σ0 self record fields now msg loglevel
                  worker_guid σ3 Hc0 Hself Hsub3 Hc3 Hw3 Hll Hwg) as Hspec.
    pose proof (s_assemble_document self now msg loglevel worker_guid fields σ3)
      as Hdoc.
    unfold wp, post in *. destruct Hspec as (Hsub & Hc & _).
    split_and!; [done..|]. intros logr' Hlogr'.
    destruct (Hdoc logr' Hlogr')
      as (Hfresh & attrs & ld & d & items & Hs & Hdv & Hld & Hit & Hkeys).
    split; [by apply (fresh_in σ0 σ3)|].
    destruct Hself as [oself Hself].
    assert (oself = SDict attrs) as ->.
    { pose proof (lookup_weaken _ _ _ _ Hself Hsub3). congruence. }
    destruct (Hc0 self attrs "defaults" (SRef ld) Hself Hdv) as [od Hod].
    assert (od = SDict d) as ->.
    { pose proof (lookup_weaken _ _ _ _ Hod Hsub3). congruence. }
    by exists attrs, ld, d, items. }
  destruct (wp_run _ _ _ _ _ Hwp Hrun) as (_ & _ & HQ). by apply HQ.
Qed.
End StoreFurther.

(** ** Deciding that a store is closed *)

#[global] Instance valid_dec σ v : Decision (valid σ v).
Proof. destruct v; simpl; apply _. Defined.

#[global] Instance closed_object_dec σ o : Decision (closed_object σ o).
Proof. destruct o; simpl; apply _. Defined.

Lemma closed_alt σ : closed σ <-> map_Forall (fun _ o => closed_object σ o) σ.
Proof.
  split.
  - intros Hc l [d|vs] Hl; simpl; [|done]. intros k v Hk. by apply (Hc l d k v).
  - intros Hall l d k v Hl Hk. by apply (Hall l (SDict d) Hl k v Hk).
Qed.

#[global] Instance closed_dec σ : Decision (closed σ).
Proof.
  refine (cast_if (decide (map_Forall (fun _ o => closed_object σ o) σ)));
    by rewrite closed_alt.
Defined.

(** ** Two calls on the sample store *)

Lemma sample_store_closed : closed sample_store.
Proof. vm_decide. Qed.

Lemma sample_store_self : is_Some (sample_store !! 1%positive).
Proof. vm_decide. Qed.

Lemma first_run :
  s_format (H := ref_store_lib) 1%positive 7%positive now0 sample_store
  = (run_1.1, run_1.2).
Proof. exact (surjective_pairing run_1). Qed.

Lemma second_run :
  s_format (H := ref_store_lib) 1%positive 8%positive now0 run_1.1
  = (run_2.1, run_2.2).
Proof. exact (surjective_pairing run_2). Qed.

Lemma repeated_calls_witness :
  closed sample_store /\
  is_Some (sample_store !! 1%positive) /\
  s_format (H := ref_store_lib) 1%positive 7%positive now0 sample_store
  = (run_1.1, run_1.2) /\
  s_format (H := ref_store_lib) 1%positive 8%positive now0 run_1.1
  = (run_2.1, run_2.2) /\
  (forall l o, sample_store !! l = Some o ->
               run_1.1 !! l = Some o /\ run_2.1 !! l = Some o) /\
  s_nested_defaults run_1.1 1%positive = s_nested_defaults sample_store 1%positive /\
  (is_Some (sample_store !! 8%positive) ->
   s_supplied run_1.1 8%positive = s_supplied sample_store 8%positive) /\
  exists res2,
    s_format_logr (H := ref_store_lib) 1%positive 8%positive now0 run_1.1
    = (run_2.1, res2) /\
    (returns run_2.2 -> returns res2) /\
    forall logr, res2 = Ok logr ->
                 fields_object run_1.1 (provenance run_1.1 1%positive 8%positive)
                               logr run_2.1.
Proof.
  split; [exact sample_store_closed|]. split; [exact sample_store_self|].
  split; [exact first_run|]. split; [exact second_run|].
  exact (repeated_calls (slib := ref_store_lib) _ _ _ _ _ _ _ _ _ _
           sample_store_closed sample_store_self first_run second_run).
Defined.

Example both_calls_return :
  run_1.2 = Ok (dq "{'@host': '127.0.0.1', '@timestamp': '2026-11-04T09:30:00.000000Z', '@fields': {'roles': ['web'], 'user': 'ann'}, '@message': 'first ann', '@source_host': 'localhost', 'tags': ['blue'], 'loglevel': 'INFO', 'logging_type': 'redis', 'worker_guid': 'app'}") /\
  run_2.2 = Ok (dq "{'@host': '127.0.0.1', '@timestamp': '2026-11-04T09:30:00.000000Z', '@fields': {'roles': ['web'], 'job': 'sync'}, '@message': '', '@source_host': 'localhost', 'tags': ['blue'], 'loglevel': 'INFO', 'logging_type': 'redis', 'worker_guid': 'app'}").
Proof. split; vm_refl. Qed.

(** The copy of the defaults is shallow: the list under [roles] in the
    ['@fields'] of the second call is the list of the configured defaults,
    at location 6, and it is as it was. *)
Example defaults_shared_and_unchanged :
  s_output_field
    (s_format_logr (H := ref_store_lib) 1%positive 8%positive now0 run_1.1) "roles"
  = Some (SRef 6%positive) /\
  s_nested_defaults sample_store 1%positive !! "roles" = Some (SRef 6%positive) /\
  run_2.1 !! 6%positive = Some (SList [SStr "web"]).
Proof. split_and!; vm_refl. Qed.

(** The second call shows nothing of the first record. *)
Example second_call_fields :
  s_output_field
    (s_format_logr (H := ref_store_lib) 1%positive 8%positive now0 run_1.1) "user"
  = None /\
  s_output_field
    (s_format_logr (H := ref_store_lib) 1%positive 8%positive now0 run_1.1) "job"
  = Some (SStr "sync").
Proof. split; vm_refl. Qed.

(** On the sample, the document of the store model shows what the model
    over values computes. *)
Example embeddings_agree :
  (let '(σ, res) :=
     s_format_logr (H := ref_store_lib) 1%positive 7%positive now0 sample_store in
   logr ← res; Ok (view σ (SRef logr)))
  = (PyDict <$>
       format_logr (H := ref_lib)
         (formatter_with
            (list_to_map
               [("tags", PyList [PyStr "blue"]);
                ("@fields", PyDict {["roles" := PyList [PyStr "web"]]})]))
         {| __dict__ :=
              list_to_map
                [("msg", PyStr "first {user}"); ("name", PyStr "app");
                 ("levelname", PyStr "INFO"); ("lineno", PyInt 42);
                 ("exc_info", PyNone); ("user", PyStr "ann")];
            getMessage := Ok "first {user}" |} now0).
Proof. vm_refl. Qed.
(** ** The document of the first call on the sample store *)

Lemma first_document :
  s_format_logr (H := ref_store_lib) 1%positive 7%positive now0 sample_store
  = (logr_run_1.1, Ok 11%positive).
Proof. vm_refl. Qed.

Lemma document_shares_defaults_witness :
  closed sample_store /\
  is_Some (sample_store !! 1%positive) /\
  s_format_logr (H := ref_store_lib) 1%positive 7%positive now0 sample_store
  = (logr_run_1.1, Ok 11%positive) /\
  sample_store !! 11%positive = None /\
  exists attrs ld d items,
    sample_store !! 1%positive = Some (SDict attrs) /\
    attrs !! "defaults" = Some (SRef ld) /\
    sample_store !! ld = Some (SDict d) /\
    logr_run_1.1 !! 11%positive = Some (SDict items) /\
    forall k, k ∉ reserved_keys -> items !! k = d !! k.
Proof.
  split; [exact sample_store_closed|]. split; [exact sample_store_self|].
  split; [exact first_document|].
  exact (document_shares_defaults (slib := ref_store_lib) _ _ _ _ _ _
           sample_store_closed sample_store_self first_document).
Defined.

(** The list under [tags] in the document is the list of the configured
    defaults, at location 3. *)
Example tags_shared :
  (match logr_run_1.1 !! 11%positive with
   | Some (SDict items) => items !! "tags"
   | _ => None
   end) = Some (SRef 3%positive) /\
  (match sample_store !! 2%positive with
   | Some (SDict d) => d !! "tags"
   | _ => None
   end) = Some (SRef 3%positive).
Proof. split; vm_refl. Qed.
